(** * Multi-platform audio downloader: URL handling, presets and orchestration

    A shallow embedding of [spoti-down-m4a-opus-v4.2.py].

    Python [str] values are modelled by [string]: the characters are the
    bytes of the UTF-8 encoding.  Every pattern the program searches for,
    splits at or replaces is plain ASCII, and UTF-8 never reuses an ASCII
    byte inside a longer sequence, so searching, splitting and replacing
    agree on code points and on bytes. *)

From Stdlib Require Import Bool Arith ZArith Lia List Ascii String DecimalString.
Import ListNotations.

Local Open Scope list_scope.
Local Open Scope string_scope.

(** ** Python string primitives *)

Module PyStr.

(** [s.startswith(p)] *)
Fixpoint startswith (p s : string) : bool :=
  match p, s with
  | EmptyString, _ => true
  | String _ _, EmptyString => false
  | String a p', String b s' => Ascii.eqb a b && startswith p' s'
  end.

(** [p in s] for two strings: [p] occurs in [s] as a contiguous block. *)
Fixpoint contains (p s : string) : bool :=
  startswith p s ||
  match s with
  | EmptyString => false
  | String _ s' => contains p s'
  end.

(** The pieces of [s.split(sep)] for a non-empty [sep]: the scan goes left to
    right, an occurrence of [sep] closes the current piece and the scan resumes
    after it ([skip] counts the characters of the occurrence still to pass). *)
Fixpoint split_go (sep : string) (skip : nat) (s : string) : list string :=
  match s with
  | EmptyString => [EmptyString]
  | String c s' =>
      match skip with
      | S k => split_go sep k s'
      | O =>
          if startswith sep s
          then EmptyString :: split_go sep (String.length sep - 1) s'
          else match split_go sep 0 s' with
               | piece :: rest => String c piece :: rest
               | [] => [String c EmptyString]
               end
      end
  end.

Definition split (sep s : string) : list string := split_go sep 0 s.

(** [l[-1]] and [l[0]] on the result of a split, which is never empty. *)
Definition last_piece (l : list string) : string := List.last l EmptyString.
Definition first_piece (l : list string) : string := List.hd EmptyString l.

(** [s.replace(old, new)] for a non-empty [old], same scan as [split]. *)
Fixpoint replace_go (old new : string) (skip : nat) (s : string) : string :=
  match s with
  | EmptyString => EmptyString
  | String c s' =>
      match skip with
      | S k => replace_go old new k s'
      | O =>
          if startswith old s
          then new ++ replace_go old new (String.length old - 1) s'
          else String c (replace_go old new 0 s')
      end
  end.

Definition replace (old new s : string) : string := replace_go old new 0 s.

(** [sep.join(l)] *)
Fixpoint join (sep : string) (l : list string) : string :=
  match l with
  | [] => EmptyString
  | [x] => x
  | x :: rest => x ++ sep ++ join sep rest
  end.

(** The character-wise image of a string. *)
Fixpoint map_chars (f : ascii -> ascii) (s : string) : string :=
  match s with
  | EmptyString => EmptyString
  | String c s' => String (f c) (map_chars f s')
  end.

(** [c] occurs in [s]. *)
Fixpoint has_char (c : ascii) (s : string) : bool :=
  match s with
  | EmptyString => false
  | String d s' => Ascii.eqb c d || has_char c s'
  end.

(** [s.endswith(p)] *)
Fixpoint endswith (p s : string) : bool :=
  String.eqb p s ||
  match s with
  | EmptyString => false
  | String _ s' => endswith p s'
  end.

(** [p] occurs in [s]: the declarative reading of [p in s]. *)
Definition Substring (p s : string) : Prop :=
  exists a b, s = a ++ p ++ b.

End PyStr.

(** ** URL classifier *)

Inductive UrlCategory := spotify | jiosaavn | other.

Definition detect_url_type (url : string) : UrlCategory :=
  if PyStr.contains "spotify.com" url then spotify
  else if PyStr.contains "jiosaavn.com" url || PyStr.contains "saavn.com" url
       then jiosaavn
       else other.

(** ** Values decoded from JSON

    [response.json()] yields [None], booleans, integers, strings, lists and
    dicts.  A dict keeps its keys in the order of the response, so it is an
    association list (looked up from the front; the keys of a decoded dict are
    distinct).  Numbers with a fraction or an exponent (Python floats) are not
    represented. *)

#[local] Set Warnings "-register-all".

Inductive json : Type :=
| JNull
| JBool (b : bool)
| JInt (z : Z)
| JStr (s : string)
| JArr (items : list json)
| JObj (fields : list (string * json)).

Inductive exn : Type :=
| TypeError | KeyError | IndexError | AttributeError | ValueError
| RequestError    (* requests: connection failure, HTTP error status, bad JSON *)
| DownloadError.  (* yt_dlp: extraction, download or post-processing failure *)

Inductive result (A : Type) : Type :=
| Ok (a : A)
| Raise (e : exn).
Arguments Ok {A} a.
Arguments Raise {A} e.

Module Py.

(** UTF-8 continuation bytes, 0x80..0xBF. *)
Definition is_continuation (c : ascii) : bool :=
  let n := nat_of_ascii c in (128 <=? n)%nat && (n <? 192)%nat.

(** [cp_go s]: the continuation bytes [s] starts with, and the characters
    (code points, each with its continuation bytes) after them. *)
Fixpoint cp_go (s : string) : string * list string :=
  match s with
  | EmptyString => (EmptyString, [])
  | String c s' =>
      let (k, l) := cp_go s' in
      if is_continuation c then (String c k, l)
      else (EmptyString, String c k :: l)
  end.

Definition codepoints (s : string) : list string := snd (cp_go s).

Fixpoint lookup (k : string) (d : list (string * json)) : option json :=
  match d with
  | [] => None
  | (k', v) :: d' => if String.eqb k k' then Some v else lookup k d'
  end.

Definition keys (d : list (string * json)) : list string := List.map fst d.

(** [not x] is [negb (truthy x)]. *)
Definition truthy (x : json) : bool :=
  match x with
  | JNull => false
  | JBool b => b
  | JInt z => negb (Z.eqb z 0)
  | JStr s => negb (String.eqb s EmptyString)
  | JArr l => match l with [] => false | _ => true end
  | JObj d => match d with [] => false | _ => true end
  end.

Definition isinstance_dict (x : json) : bool :=
  match x with JObj _ => true | _ => false end.

(** [k in x] for a string [k]. *)
Definition contains_str (k : string) (x : json) : result bool :=
  match x with
  | JObj d => Ok (match lookup k d with Some _ => true | None => false end)
  | JArr l =>
      Ok (existsb (fun e => match e with JStr s => String.eqb s k | _ => false end) l)
  | JStr s => Ok (PyStr.contains k s)
  | JNull | JBool _ | JInt _ => Raise TypeError
  end.

(** [x[k]] for a string [k]. *)
Definition getitem_str (x : json) (k : string) : result json :=
  match x with
  | JObj d => match lookup k d with Some v => Ok v | None => Raise KeyError end
  | _ => Raise TypeError
  end.

(** [x[0]]; no key of a decoded dict equals the integer 0. *)
Definition getitem_0 (x : json) : result json :=
  match x with
  | JArr (v :: _) => Ok v
  | JArr [] => Raise IndexError
  | JStr s => match codepoints s with
              | c :: _ => Ok (JStr c)
              | [] => Raise IndexError
              end
  | JObj _ => Raise KeyError
  | JNull | JBool _ | JInt _ => Raise TypeError
  end.

(** [len(x)] *)
Definition len (x : json) : result nat :=
  match x with
  | JArr l => Ok (List.length l)
  | JObj d => Ok (List.length d)
  | JStr s => Ok (List.length (codepoints s))
  | JNull | JBool _ | JInt _ => Raise TypeError
  end.

(** [x.get(k, default)] *)
Definition get (x : json) (k : string) (default : json) : result json :=
  match x with
  | JObj d => Ok (match lookup k d with Some v => v | None => default end)
  | _ => Raise AttributeError
  end.

(** The items a [for] loop or a comprehension draws from [x]. *)
Definition iter (x : json) : result (list json) :=
  match x with
  | JArr l => Ok l
  | JStr s => Ok (List.map JStr (codepoints s))
  | JObj d => Ok (List.map JStr (keys d))
  | JNull | JBool _ | JInt _ => Raise TypeError
  end.

(** The integer behind [x // n] and [x % n]; [bool] is a subclass of [int]. *)
Definition as_int (x : json) : result Z :=
  match x with
  | JInt z => Ok z
  | JBool b => Ok (if b then 1%Z else 0%Z)
  | _ => Raise TypeError
  end.

(** [str(n)] for an [int]. *)
Definition str_int (n : Z) : string := NilZero.string_of_int (Z.to_int n).

(** [format(n, "02d")]: zero-padded to two columns, the sign taking one. *)
Definition format_02d (n : Z) : string :=
  if (0 <=? n)%Z && (n <? 10)%Z then "0" ++ str_int n else str_int n.

(** [s.rstrip(c)] for a single character [c]. *)
Fixpoint rstrip (c : ascii) (s : string) : string :=
  match s with
  | EmptyString => EmptyString
  | String d s' =>
      match rstrip c s' with
      | EmptyString => if Ascii.eqb d c then EmptyString else String d EmptyString
      | r => String d r
      end
  end.

End Py.

(** ** Duration display

    [f"{duration_min}:{duration_sec:02d}"] in both branches of [main]. *)

Definition duration_text_seconds (duration : Z) : string :=
  let duration_min := (duration / 60)%Z in
  let duration_sec := (duration mod 60)%Z in
  Py.str_int duration_min ++ ":" ++ Py.format_02d duration_sec.

Definition duration_text_ms (duration_ms : Z) : string :=
  let duration_min := (duration_ms / 60000)%Z in
  let duration_sec := ((duration_ms mod 60000) / 1000)%Z in
  Py.str_int duration_min ++ ":" ++ Py.format_02d duration_sec.

(** ** Quality presets and yt-dlp options *)

Record Preset := { name : string; codec : string; bitrate : option string }.

Definition preset_1 : Preset :=
  {| name := "M4A 320kbps (Best Quality)"; codec := "m4a"; bitrate := Some "320" |}.
Definition preset_2 : Preset :=
  {| name := "Opus 160kbps (High Efficiency)"; codec := "opus"; bitrate := Some "160" |}.
Definition preset_3 : Preset :=
  {| name := "Best Available (No Conversion)"; codec := "best"; bitrate := None |}.

Definition QUALITY_PRESETS : list (string * Preset) :=
  [ ("1", preset_1); ("2", preset_2); ("3", preset_3) ].

(** [d.get(k)] on the table; [None] when [k] is not a key. *)
Fixpoint presets_get (k : string) (d : list (string * Preset)) : option Preset :=
  match d with
  | [] => None
  | (k', v) :: d' => if String.eqb k k' then Some v else presets_get k d'
  end.

(** [QUALITY_PRESETS.get(quality_choice, QUALITY_PRESETS['1'])]; the default
    is evaluated first and is the entry of key "1", [preset_1]. *)
Definition resolve_preset (quality_choice : string) : Preset :=
  match presets_get quality_choice QUALITY_PRESETS with
  | Some p => p
  | None => preset_1
  end.

Record Postprocessor := {
  key : string;
  preferredcodec : string;
  preferredquality : option string   (* the entry is absent when [None] *)
}.

Record YdlOpts := {
  format : string;
  outtmpl : string;
  quiet : bool;
  keepvideo : bool;
  postprocessors : list Postprocessor;
  no_warnings : option bool;
  extract_audio : option bool;
  extractor_args : list (string * list (string * list string))
}.

Record AudioDownloader := { output_dir : string }.

Definition get_download_options (self : AudioDownloader) (quality_choice : string)
  : YdlOpts :=
  let preset := resolve_preset quality_choice in
  {| format := "bestaudio/best";
     outtmpl := output_dir self ++ "/%(title)s.%(ext)s";
     quiet := false;
     keepvideo := true;
     postprocessors :=
       if String.eqb (codec preset) "best" then []
       else [ {| key := "FFmpegExtractAudio";
                 preferredcodec := codec preset;
                 preferredquality :=
                   match bitrate preset with
                   | Some b => if String.eqb b EmptyString then None else Some b
                   | None => None
                   end |} ];
     no_warnings := None;
     extract_audio := None;
     extractor_args := [] |}.

(** ** Calls that leave the process

    [requests.post], [requests.get] (each followed by [raise_for_status] and
    [json]) and [YoutubeDL(opts).extract_info(source, download=True)].  A
    [World] answers each call with the decoded value or with the exception it
    raises; a computation returns its result and the calls it made, in order. *)

Inductive Request : Type :=
| HttpPost (url : string) (basic_auth : string * string) (data : list (string * string))
| HttpGet (url : string) (bearer : option string) (params : list (string * json))
| YdlExtract (source : string) (ydl_opts : YdlOpts).

Definition World : Type := Request -> result json.

Definition M (A : Type) : Type := World -> result A * list Request.

Definition ret {A} (a : A) : M A := fun _ => (Ok a, []).

Definition lift {A} (r : result A) : M A := fun _ => (r, []).

Definition call (q : Request) : M json := fun w => (w q, [q]).

Definition bind {A B} (m : M A) (k : A -> M B) : M B :=
  fun w =>
    match m w with
    | (Ok a, l) => let (r, l') := k a w in (r, (l ++ l')%list)
    | (Raise e, l) => (Raise e, l)
    end.

(** [try: m  except Exception: h] *)
Definition try_except {A} (m : M A) (h : exn -> M A) : M A :=
  fun w =>
    match m w with
    | (Ok a, l) => (Ok a, l)
    | (Raise e, l) => let (r, l') := h e w in (r, (l ++ l')%list)
    end.

Definition rbind {A B} (r : result A) (k : A -> result B) : result B :=
  match r with
  | Ok a => k a
  | Raise e => Raise e
  end.

Declare Scope result_scope.
Delimit Scope result_scope with result.
Notation "x <- e ;; k" := (rbind e (fun x => k))
  (at level 61, e at next level, right associativity) : result_scope.

Declare Scope io_scope.
Delimit Scope io_scope with io.
Notation "x <- e ;; k" := (bind e (fun x => k))
  (at level 61, e at next level, right associativity) : io_scope.
Notation "' pat <- e ;; k" := (bind e (fun x => match x with pat => k end))
  (at level 61, pat pattern, e at next level, right associativity) : io_scope.

(** [[f(x) for x in l]], stopping at the first exception. *)
Fixpoint traverse {A B} (f : A -> result B) (l : list A) : result (list B) :=
  match l with
  | [] => Ok []
  | x :: l' =>
      (y <- f x ;; ys <- traverse f l' ;; Ok (y :: ys))%result
  end.

(** [sep.join(l)]: every item has to be a [str]. *)
Definition join_values (sep : string) (l : list json) : result string :=
  (strs <- traverse (fun v => match v with JStr s => Ok s | _ => Raise TypeError end) l ;;
   Ok (PyStr.join sep strs))%result.

(** ** JioSaavn resolver *)

Module JioSaavnAPI.

Definition api_url : string := "https://www.jiosaavn.com/api.php".

(** [song_url.rstrip('/').split('/')[-1]] *)
Definition song_id_of (song_url : string) : string :=
  PyStr.last_piece (PyStr.split "/" (Py.rstrip "/" song_url)).

(** The loop over [data.keys()] that returns the first dict-valued entry. *)
Fixpoint first_dict_value (data : json) (ks : list string) : result json :=
  match ks with
  | [] => Ok JNull
  | k :: ks' =>
      (v <- Py.getitem_str data k ;;
       if Py.isinstance_dict v then Py.getitem_str data k
       else first_dict_value data ks')%result
  end.

(** What [get_song_details] does with the decoded response, inside its [try]. *)
Definition song_from_data (song_id : string) (data : json) : result json :=
  match data with
  | JObj d =>
      (by_id <- Py.contains_str song_id data ;;
       if by_id then Py.getitem_str data song_id
       else
         has_songs <- Py.contains_str "songs" data ;;
         nonempty <- (if has_songs
                      then songs <- Py.getitem_str data "songs" ;;
                           n <- Py.len songs ;;
                           Ok (0 <? n)%nat
                      else Ok false) ;;
         if nonempty
         then songs <- Py.getitem_str data "songs" ;; Py.getitem_0 songs
         else first_dict_value data (Py.keys d))%result
  | _ => Ok JNull
  end.

Definition get_song_details (song_url : string) : M json :=
  try_except
    (let song_id := song_id_of song_url in
     let params := [ ("__call", JStr "song.getDetails"); ("cc", JStr "in");
                     ("pids", JStr song_id); ("_format", JStr "json");
                     ("_marker", JStr "0") ] in
     data <- call (HttpGet api_url None params) ;;
     lift (song_from_data song_id data))%io
    (fun _ => ret JNull).

Definition decrypt_url (encrypted_url : json) (quality : string) : M json :=
  try_except
    (let params := [ ("__call", JStr "song.generateAuthToken");
                     ("url", encrypted_url); ("bitrate", JStr quality);
                     ("_format", JStr "json"); ("_marker", JStr "0") ] in
     data <- call (HttpGet api_url None params) ;;
     has_auth <- lift (Py.contains_str "auth_url" data) ;;
     if has_auth then lift (Py.getitem_str data "auth_url") else ret JNull)%io
    (fun _ => ret JNull).

Definition get_audio_url (song_details : json) (quality : string) : M json :=
  try_except
    (has_enc <- lift (Py.contains_str "encrypted_media_url" song_details) ;;
     if has_enc
     then encrypted_url <- lift (Py.getitem_str song_details "encrypted_media_url") ;;
          decrypt_url encrypted_url quality
     else has_preview <- lift (Py.contains_str "media_preview_url" song_details) ;;
          if has_preview
          then lift (Py.getitem_str song_details "media_preview_url")
          else ret JNull)%io
    (fun _ => ret JNull).

End JioSaavnAPI.

Section Program.

(** Python's [str()] as an f-string applies it to a decoded value.  Its text
    for lists, dicts and non-ASCII strings depends on tables of the
    interpreter, so the program is embedded over any such function. *)
Variable py_str : json -> string.

(** ** Spotify resolver *)

Record SpotifyAPI := {
  client_id : string;
  client_secret : string;
  access_token : json
}.

Definition SpotifyAPI_init (id secret : string) : SpotifyAPI :=
  {| client_id := id; client_secret := secret; access_token := JNull |}.

(** The credentials travel base64-encoded in a [Basic] authorization header. *)
Definition get_access_token (self : SpotifyAPI) : M (bool * SpotifyAPI) :=
  try_except
    (response <- call (HttpPost "https://accounts.spotify.com/api/token"
                                (client_id self, client_secret self)
                                [("grant_type", "client_credentials")]) ;;
     token <- lift (Py.getitem_str response "access_token") ;;
     ret (true, {| client_id := client_id self;
                   client_secret := client_secret self;
                   access_token := token |}))%io
    (fun _ => ret (false, self)).

(** [track_url.split("/track/")[-1].split("?")[0]] *)
Definition track_id_of (track_url : string) : string :=
  PyStr.first_piece
    (PyStr.split "?" (PyStr.last_piece (PyStr.split "/track/" track_url))).

Definition fetch_track (self : SpotifyAPI) (track_url : string) : M (json * SpotifyAPI) :=
  let track_id := track_id_of track_url in
  let api_url := "https://api.spotify.com/v1/tracks/" ++ track_id in
  try_except
    (response <- call (HttpGet api_url (Some (py_str (access_token self))) []) ;;
     ret (response, self))%io
    (fun _ => ret (JNull, self)).

Definition get_track_info (self : SpotifyAPI) (track_url : string)
  : M (json * SpotifyAPI) :=
  if negb (Py.truthy (access_token self))
  then ('(ok, self') <- get_access_token self ;;
        if negb ok then ret (JNull, self') else fetch_track self' track_url)%io
  else fetch_track self track_url.

(** ** Downloader *)

(** The options [download_youtube] hands to yt-dlp. *)
Definition search_options (self : AudioDownloader) (quality_choice : string)
  : YdlOpts :=
  let o := get_download_options self quality_choice in
  {| format := format o; outtmpl := outtmpl o; quiet := quiet o;
     keepvideo := keepvideo o; postprocessors := postprocessors o;
     no_warnings := Some false;
     extract_audio := Some true;
     extractor_args := [("youtube", [("player_client", ["android"; "web"])])] |}.

Definition download_youtube (self : AudioDownloader)
    (search_query quality_choice : string) : M bool :=
  try_except
    (let url := "ytsearch1:" ++ search_query in
     let ydl_opts := search_options self quality_choice in
     info <- call (YdlExtract url ydl_opts) ;;
     title <- lift (Py.get info "title" (JStr "Unknown")) ;;
     ret true)%io
    (fun _ => ret false).

(** ** Orchestrator

    [main] reads two lines; [url_in] and [quality_in] are those lines after
    [strip()].  It returns nothing: [status] records which terminal message
    the run prints ([Succeeded] for a "Successfully downloaded" line,
    [Failed] for a failure or rejection line) and [duration_shown] the
    duration of the track summary when one is printed.  An exception that
    escapes [main] is the [Raise] of the result.  Creating the output
    directory and writing to the console are not recorded. *)

Inductive Outcome := Succeeded | Failed.

Record Report := { status : Outcome; duration_shown : option string }.

Definition SPOTIFY_CLIENT_ID : string := "2079ef31b1bb4feaaaa811d9f280faef".
Definition SPOTIFY_CLIENT_SECRET : string := "2e76121a91864d41a768ba1eaf80610e".
Definition default_url : string := "https://www.jiosaavn.com/song/slava-funk/Mi8IRkxDAUM".

(** [url.split('/song/')[-1].split('/')[0].replace('-', ' ')] *)
Definition song_name_of (url : string) : string :=
  PyStr.replace "-" " "
    (PyStr.first_piece
       (PyStr.split "/" (PyStr.last_piece (PyStr.split "/song/" url)))).

Definition effective_url (url_in : string) : string :=
  if String.eqb url_in EmptyString then default_url else url_in.

Definition effective_quality (quality_in : string) : string :=
  let quality := if String.eqb quality_in EmptyString then "1" else quality_in in
  match presets_get quality QUALITY_PRESETS with
  | Some _ => quality
  | None => "1"
  end.

(** The [try] body of the JioSaavn branch. *)
Definition jiosaavn_direct (downloader : AudioDownloader) (url quality : string)
  : M Report :=
  (let ydl_opts := get_download_options downloader quality in
   info <- call (YdlExtract url ydl_opts) ;;
   track <- lift (Py.get info "track" (JStr "Unknown")) ;;
   track_name <- lift (Py.get info "title" track) ;;
   uploader <- lift (Py.get info "uploader" (JStr "Unknown")) ;;
   artists <- lift (Py.get info "artist" uploader) ;;
   duration <- lift (Py.get info "duration" (JInt 0)) ;;
   d <- lift (Py.as_int duration) ;;
   ret {| status := Succeeded;
          duration_shown := Some (duration_text_seconds d) |})%io.

(** The [except] handler of the JioSaavn branch. *)
Definition jiosaavn_fallback (downloader : AudioDownloader) (url quality : string)
  : M Report :=
  (let song_name := song_name_of url in
   ok <- download_youtube downloader song_name quality ;;
   ret {| status := if ok then Succeeded else Failed; duration_shown := None |})%io.

Definition spotify_branch (downloader : AudioDownloader) (url quality : string)
  : M Report :=
  (let spotify := SpotifyAPI_init SPOTIFY_CLIENT_ID SPOTIFY_CLIENT_SECRET in
   '(track_info, _) <- get_track_info spotify url ;;
   if negb (Py.truthy track_info)
   then ret {| status := Failed; duration_shown := None |}
   else
     track_name <- lift (Py.get track_info "name" (JStr "Unknown")) ;;
     artist_items <- lift (artists <- Py.get track_info "artists" (JArr []) ;;
                           Py.iter artists)%result ;;
     artists <- lift (traverse (fun artist => Py.getitem_str artist "name")
                               artist_items) ;;
     album_name <- lift (album <- Py.get track_info "album" (JObj []) ;;
                         Py.get album "name" (JStr "Unknown"))%result ;;
     release_date <- lift (album <- Py.get track_info "album" (JObj []) ;;
                           Py.get album "release_date" (JStr "Unknown"))%result ;;
     duration_ms <- lift (v <- Py.get track_info "duration_ms" (JInt 0) ;;
                          Py.as_int v)%result ;;
     shown_artists <- lift (join_values ", " artists) ;;
     joined <- lift (join_values " " artists) ;;
     let search_query := py_str track_name ++ " " ++ joined in
     ok <- download_youtube downloader search_query quality ;;
     ret {| status := if ok then Succeeded else Failed;
            duration_shown := Some (duration_text_ms duration_ms) |})%io.

Definition main (url_in quality_in : string) : M Report :=
  let downloader := {| output_dir := "downloads" |} in
  let url := effective_url url_in in
  let url_type := detect_url_type url in
  let quality := effective_quality quality_in in
  match url_type with
  | jiosaavn =>
      try_except (jiosaavn_direct downloader url quality)
                 (fun _ => jiosaavn_fallback downloader url quality)
  | spotify => spotify_branch downloader url quality
  | other => ret {| status := Failed; duration_shown := None |}
  end.

End Program.

(** ** Vocabulary of the statements *)

(** A call that asks yt-dlp for audio. *)
Definition is_download (q : Request) : bool :=
  match q with
  | YdlExtract _ _ => true
  | _ => false
  end.

(** A yt-dlp call in search mode: the source is a [ytsearch1:] query. *)
Definition is_search (q : Request) : bool :=
  match q with
  | YdlExtract source _ => PyStr.startswith "ytsearch1:" source
  | _ => false
  end.

(** No occurrence of [sep] in [pre ++ sep ++ tail] starts inside [pre] and
    runs over its end: the left-to-right scan of [split] reaches the end of
    [pre] with no occurrence pending. *)
Definition straddle_free (sep pre tail : string) : Prop :=
  forall a b, pre = a ++ b -> b <> "" ->
              String.length b < String.length sep ->
              PyStr.startswith sep (b ++ sep ++ tail) = false.

Definition hyphen_to_space (c : ascii) : ascii :=
  if Ascii.eqb c "-" then " "%char else c.

(** An artist entry of a track object: a dict whose ["name"] is [n]. *)
Definition artist_named (a : json) (n : string) : Prop :=
  exists fields, a = JObj fields /\ Py.lookup "name" fields = Some (JStr n).

(** A track object as the Spotify catalogue returns it, named [nm], by the
    artists [names] and lasting [ms] milliseconds; the album, when there is
    one, is a dict. *)
Definition track_object (fields : list (string * json))
    (nm : string) (names : list string) (ms : Z) : Prop :=
  Py.lookup "name" fields = Some (JStr nm) /\
  (exists artists, Py.lookup "artists" fields = Some (JArr artists) /\
                   Forall2 artist_named artists names) /\
  (Py.lookup "album" fields = None \/
   exists album, Py.lookup "album" fields = Some (JObj album)) /\
  Py.lookup "duration_ms" fields = Some (JInt ms).

(** The fallback chain of the JioSaavn details as the specification words it:
    the value under the requested id; else the first element of a non-empty
    ["songs"] array; else the value of the first dict-valued entry; else
    [None]. *)
Fixpoint first_dict_entry (d : list (string * json)) : json :=
  match d with
  | [] => JNull
  | (_, JObj f) :: _ => JObj f
  | _ :: d' => first_dict_entry d'
  end.

Definition details_chain_spec (song_id : string) (fields : list (string * json))
  : json :=
  match Py.lookup song_id fields with
  | Some v => v
  | None =>
      match Py.lookup "songs" fields with
      | Some (JArr (first :: _)) => first
      | _ => first_dict_entry fields
      end
  end.

(** The value [get_song_details] hands back for a decoded response. *)
Definition details_of_response (song_id : string) (data : json) : json :=
  match JioSaavnAPI.song_from_data song_id data with
  | Ok v => v
  | Raise _ => JNull
  end.

(** A world whose details endpoint answers [data]. *)
Definition details_world (data : json) : World :=
  fun q =>
    match q with
    | HttpGet _ _ _ => Ok data
    | _ => Raise RequestError
    end.

(** A catalogue answer and a world to run the program in: the token request
    and the catalogue answer, and yt-dlp finds a 125 second track. *)
Definition sample_track : json :=
  JObj [ ("name", JStr "Slava Funk");
         ("artists", JArr [ JObj [("name", JStr "MVSTERIOUS")];
                            JObj [("name", JStr "Hxmr")] ]);
         ("album", JObj [("name", JStr "Slava Funk");
                         ("release_date", JStr "2024-01-01")]);
         ("duration_ms", JInt 3661000) ].

Definition sample_world : World :=
  fun q =>
    match q with
    | HttpPost _ _ _ => Ok (JObj [("access_token", JStr "token")])
    | HttpGet _ _ _ => Ok sample_track
    | YdlExtract _ _ => Ok (JObj [("title", JStr "Slava Funk"); ("duration", JInt 125)])
    end.

(** [str()] on the scalars; lists and dicts are left out. *)
Definition str_of_scalar (v : json) : string :=
  match v with
  | JStr s => s
  | JInt z => Py.str_int z
  | JBool true => "True"
  | JBool false => "False"
  | JNull => "None"
  | JArr _ | JObj _ => ""
  end.

(** A world in which every call fails. *)
Definition offline_world : World :=
  fun q =>
    match q with
    | YdlExtract _ _ => Raise DownloadError
    | _ => Raise RequestError
    end.

(** The requests the resolvers send. *)
Definition song_details_request (song_id : string) : Request :=
  HttpGet "https://www.jiosaavn.com/api.php" None
          [ ("__call", JStr "song.getDetails"); ("cc", JStr "in");
            ("pids", JStr song_id); ("_format", JStr "json"); ("_marker", JStr "0") ].

Definition auth_token_request (encrypted_url : json) (quality : string) : Request :=
  HttpGet "https://www.jiosaavn.com/api.php" None
          [ ("__call", JStr "song.generateAuthToken");
            ("url", encrypted_url); ("bitrate", JStr quality);
            ("_format", JStr "json"); ("_marker", JStr "0") ].

Definition token_request (id secret : string) : Request :=
  HttpPost "https://accounts.spotify.com/api/token" (id, secret)
           [("grant_type", "client_credentials")].

Definition track_request (bearer track_url : string) : Request :=
  HttpGet ("https://api.spotify.com/v1/tracks/" ++ track_id_of track_url)
          (Some bearer) [].

(** A world in which yt-dlp delivers but reports no duration. *)
Definition no_duration_world : World :=
  fun q =>
    match q with
    | YdlExtract _ _ => Ok (JObj [("title", JStr "Slava Funk"); ("duration", JNull)])
    | _ => Raise RequestError
    end.

(** The object after [self.access_token = token]. *)
Definition with_token (self : SpotifyAPI) (token : json) : SpotifyAPI :=
  {| client_id := client_id self; client_secret := client_secret self;
     access_token := token |}.

(** Every character of [s] is [c]. *)
Fixpoint only_char (c : ascii) (s : string) : bool :=
  match s with
  | EmptyString => true
  | String d s' => Ascii.eqb d c && only_char c s'
  end.

(** ** Direct download

    [download_direct] streams a URL into a file of the output directory.  Its
    surroundings are: what [requests.get(url, stream=True)] followed by
    [raise_for_status] gives ([None] when either raises, else the chunks
    [iter_content] yields and whether it raises after the last of them), and
    whether [open(path, 'wb')] succeeds.  Files are a map from paths to
    contents; writing a chunk to an open file is taken to succeed.  Paths are
    joined as [posixpath.join] joins two components. *)

Record Stream := { chunks : list string; interrupted : bool }.

Record Surroundings := {
  fetch : string -> option Stream;
  creatable : string -> bool
}.

Definition Files : Type := string -> option string.

Definition write_file (fs : Files) (path content : string) : Files :=
  fun p => if String.eqb p path then Some content else fs p.

(** [os.path.join(a, b)] *)
Definition path_join (a b : string) : string :=
  if PyStr.startswith "/" b then b
  else if String.eqb a EmptyString || PyStr.endswith "/" a then a ++ b
       else a ++ "/" ++ b.

(** [for chunk in ...: f.write(chunk)] on a file that holds [content]. *)
Fixpoint write_chunks (content : string) (cs : list string) : string :=
  match cs with
  | [] => content
  | chunk :: cs' => write_chunks (content ++ chunk) cs'
  end.

Definition download_direct (self : AudioDownloader) (url filename : string)
    (env : Surroundings) (fs : Files) : bool * Files :=
  match fetch env url with
  | None => (false, fs)
  | Some response =>
      let filepath := path_join (output_dir self) filename in
      if creatable env filepath
      then (negb (interrupted response),
            write_file fs filepath (write_chunks EmptyString (chunks response)))
      else (false, fs)
  end.

(** * Properties *)

(** ** Strings *)

Lemma append_nil_r (s : string) : s ++ "" = s.
Proof. induction s as [|c s IH]; simpl; [reflexivity | now rewrite IH]. Qed.

Lemma append_assoc (a b c : string) : (a ++ b) ++ c = a ++ (b ++ c).
Proof. induction a as [|x a IH]; simpl; [reflexivity | now rewrite IH]. Qed.

Lemma length_append (a b : string) :
  String.length (a ++ b) = String.length a + String.length b.
Proof. induction a as [|x a IH]; simpl; [reflexivity | now rewrite IH]. Qed.

Lemma startswith_iff (p s : string) :
  PyStr.startswith p s = true <-> exists t, s = p ++ t.
Proof.
  revert s; induction p as [|a p IH]; intros s; simpl.
  - split; [intros _; now exists s | reflexivity].
  - destruct s as [|b s].
    + split; [discriminate | intros [t Ht]; discriminate].
    + rewrite andb_true_iff, Ascii.eqb_eq, IH. split.
      * intros [-> [t ->]]. now exists t.
      * intros [t Ht]. injection Ht as -> ->. split; [reflexivity | now exists t].
Qed.

Lemma startswith_app (p t : string) : PyStr.startswith p (p ++ t) = true.
Proof. apply startswith_iff. now exists t. Qed.

Lemma contains_iff (p s : string) :
  PyStr.contains p s = true <-> PyStr.Substring p s.
Proof.
  unfold PyStr.Substring. induction s as [|c s IH].
  - simpl. rewrite orb_false_r, startswith_iff. split.
    + intros [t Ht]. exists "", t. exact Ht.
    + intros [a [b Hab]]. destruct a; [now exists b | discriminate].
  - cbn [PyStr.contains]. rewrite orb_true_iff, startswith_iff, IH. split.
    + intros [[t Ht] | [a [b Hab]]].
      * exists "", t. exact Ht.
      * exists (String c a), b. simpl. now rewrite Hab.
    + intros [a [b Hab]]. destruct a as [|x a].
      * left. now exists b.
      * right. simpl in Hab. injection Hab as _ Hs. now exists a, b.
Qed.

Lemma contains_false_iff (p s : string) :
  PyStr.contains p s = false <-> ~ PyStr.Substring p s.
Proof.
  rewrite <- contains_iff. destruct (PyStr.contains p s).
  - split; [discriminate | intros H; now elim H].
  - split; [intros _ H; discriminate | reflexivity].
Qed.

Lemma contains_tail (p : string) (c : ascii) (s : string) :
  PyStr.contains p (String c s) = false -> PyStr.contains p s = false.
Proof.
  cbn [PyStr.contains]. intros H. now apply orb_false_iff in H.
Qed.

Lemma contains_head (p : string) (s : string) :
  PyStr.contains p s = false -> PyStr.startswith p s = false.
Proof.
  destruct s; cbn [PyStr.contains]; intros H; now apply orb_false_iff in H.
Qed.

(** ** URL classifier *)

(** C1.  [detect_url_type] is a total function of the URL alone.  It answers
    [spotify] when "spotify.com" occurs in the URL; otherwise [jiosaavn] when
    "jiosaavn.com" or "saavn.com" occurs; otherwise [other].  Occurrence is
    exact, character for character, so a differently cased host name is not
    recognised. *)
Theorem detect_url_type_rule (url : string) :
  (PyStr.Substring "spotify.com" url -> detect_url_type url = spotify) /\
  (~ PyStr.Substring "spotify.com" url ->
   PyStr.Substring "jiosaavn.com" url \/ PyStr.Substring "saavn.com" url ->
   detect_url_type url = jiosaavn) /\
  (~ PyStr.Substring "spotify.com" url ->
   ~ PyStr.Substring "jiosaavn.com" url ->
   ~ PyStr.Substring "saavn.com" url ->
   detect_url_type url = other) /\
  detect_url_type "https://open.SPOTIFY.COM/track/x" = other /\
  detect_url_type "https://www.JioSaavn.com/song/x/y" = other.
Proof.
  unfold detect_url_type. repeat split.
  - intros H. apply contains_iff in H. now rewrite H.
  - intros Hs [H | H]; apply contains_false_iff in Hs; apply contains_iff in H;
      rewrite Hs, H; [reflexivity | now rewrite orb_true_r].
  - intros Hs Hj Hv. apply contains_false_iff in Hs, Hj, Hv.
    now rewrite Hs, Hj, Hv.
Qed.

Lemma detect_url_type_rule_witness :
  detect_url_type "https://open.spotify.com/track/3n3Ppam7vgaVa1iaRUc9Lp" = spotify /\
  detect_url_type "https://www.jiosaavn.com/song/slava-funk/Mi8IRkxDAUM" = jiosaavn /\
  detect_url_type "other-domain.com/x" = other.
Proof.
  split; [| split].
  - apply (proj1 (detect_url_type_rule _)).
    exists "https://open.", "/track/3n3Ppam7vgaVa1iaRUc9Lp". reflexivity.
  - apply (proj1 (proj2 (detect_url_type_rule _))).
    + apply contains_false_iff. reflexivity.
    + left. exists "https://www.", "/song/slava-funk/Mi8IRkxDAUM". reflexivity.
  - apply (proj1 (proj2 (proj2 (detect_url_type_rule _))));
      apply contains_false_iff; reflexivity.
Defined.

(** ** Splitting and replacing *)

Lemma split_go_hit (sep : string) (c : ascii) (s : string) :
  PyStr.startswith sep (String c s) = true ->
  PyStr.split_go sep 0 (String c s)
  = "" :: PyStr.split_go sep (String.length sep - 1) s.
Proof. intros H. cbn [PyStr.split_go]. now rewrite H. Qed.

Lemma split_go_miss (sep : string) (c : ascii) (s : string) :
  PyStr.startswith sep (String c s) = false ->
  PyStr.split_go sep 0 (String c s)
  = match PyStr.split_go sep 0 s with
    | piece :: rest => String c piece :: rest
    | [] => [String c ""]
    end.
Proof. intros H. cbn [PyStr.split_go]. now rewrite H. Qed.

Lemma split_go_skip (sep u t : string) :
  PyStr.split_go sep (String.length u) (u ++ t) = PyStr.split_go sep 0 t.
Proof.
  induction u as [|c u IH]; simpl; [now destruct t | exact IH].
Qed.

(** A string without the separator is a single piece. *)
Lemma split_go_whole (sep t : string) :
  PyStr.contains sep t = false -> PyStr.split_go sep 0 t = [t].
Proof.
  induction t as [|c t IH]; intros H; [reflexivity|].
  rewrite split_go_miss by now apply contains_head.
  now rewrite IH by now apply contains_tail with c.
Qed.

(** The scan over [pre ++ sep ++ tail]: when no occurrence straddles the end
    of [pre] and [tail] holds no further one, the last piece is [tail]. *)
Lemma split_go_boundary (sep tail : string) :
  PyStr.contains sep tail = false ->
  forall pre skip,
    skip <= String.length pre ->
    straddle_free sep pre tail ->
    exists h l, PyStr.split_go sep skip (pre ++ sep ++ tail) = h :: (l ++ [tail])%list.
Proof.
  intros Htail.
  assert (Hsep : 1 <= String.length sep).
  { destruct sep; [destruct tail; discriminate Htail | simpl; lia]. }
  induction pre as [|c pre IH]; intros skip Hle Hfree.
  - simpl in Hle. assert (skip = 0) as -> by lia.
    change ("" ++ sep ++ tail) with (sep ++ tail).
    pose proof (startswith_app sep tail) as Hhit.
    destruct sep as [|c0 sep']; [simpl in Hsep; lia|].
    simpl append in Hhit |- *.
    rewrite split_go_hit by exact Hhit.
    replace (String.length (String c0 sep') - 1) with (String.length sep')
      by (simpl; lia).
    rewrite split_go_skip, split_go_whole by exact Htail.
    now exists "", [].
  - assert (Hfree' : straddle_free sep pre tail).
    { intros a b Hab. apply (Hfree (String c a) b). simpl. now rewrite Hab. }
    change (String c pre ++ sep ++ tail) with (String c (pre ++ sep ++ tail)).
    destruct skip as [|k].
    + destruct (PyStr.startswith sep (String c (pre ++ sep ++ tail))) eqn:Hhit.
      * rewrite split_go_hit by exact Hhit.
        assert (Hlen : String.length sep <= String.length (String c pre)).
        { destruct (le_lt_dec (String.length sep) (String.length (String c pre)))
            as [Hl | Hl]; [exact Hl|].
          assert (Hf := Hfree "" (String c pre) eq_refl).
          change (String c pre ++ sep ++ tail)
            with (String c (pre ++ sep ++ tail)) in Hf.
          rewrite Hf in Hhit; [discriminate | discriminate | exact Hl]. }
        destruct (IH (String.length sep - 1)) as [h [l Hl]];
          [simpl in Hlen; lia | exact Hfree' |].
        rewrite Hl. now exists "", (h :: l).
      * rewrite split_go_miss by exact Hhit.
        destruct (IH 0) as [h [l Hl]]; [lia | exact Hfree' |].
        rewrite Hl. now exists (String c h), l.
    + cbn [PyStr.split_go]. apply IH; [simpl in Hle; lia | exact Hfree'].
Qed.

Lemma last_piece_after (sep pre tail : string) :
  PyStr.contains sep tail = false ->
  straddle_free sep pre tail ->
  PyStr.last_piece (PyStr.split sep (pre ++ sep ++ tail)) = tail.
Proof.
  intros Htail Hfree.
  destruct (split_go_boundary sep tail Htail pre 0) as [h [l Hl]];
    [lia | exact Hfree |].
  unfold PyStr.split, PyStr.last_piece. rewrite Hl.
  change (h :: (l ++ [tail])%list) with ((h :: l) ++ [tail])%list.
  apply List.last_last.
Qed.

(** Up to the first separating character the first piece is the segment. *)
Lemma first_piece_before (c : ascii) (seg rest : string) :
  PyStr.has_char c seg = false ->
  rest = "" \/ (exists r, rest = String c r) ->
  PyStr.first_piece (PyStr.split (String c "") (seg ++ rest)) = seg.
Proof.
  intros Hseg Hrest. unfold PyStr.split, PyStr.first_piece.
  enough (exists l, PyStr.split_go (String c "") 0 (seg ++ rest) = seg :: l)
    as [l ->] by reflexivity.
  induction seg as [|d seg IH].
  - destruct Hrest as [-> | [r ->]]; [now exists []|].
    simpl append. rewrite split_go_hit; [eauto|].
    simpl. now rewrite Ascii.eqb_refl.
  - simpl in Hseg. apply orb_false_iff in Hseg as [Hd Hseg].
    destruct (IH Hseg) as [l Hl].
    change (String d seg ++ rest) with (String d (seg ++ rest)).
    rewrite split_go_miss; [rewrite Hl; eauto|].
    simpl. now rewrite Hd.
Qed.

(** Replacing one character by another acts character by character. *)
Lemma replace_char (a b : ascii) (s : string) :
  PyStr.replace (String a "") (String b "") s
  = PyStr.map_chars (fun c => if Ascii.eqb c a then b else c) s.
Proof.
  unfold PyStr.replace. induction s as [|c s IH]; [reflexivity|].
  cbn [PyStr.replace_go PyStr.startswith PyStr.map_chars].
  rewrite (Ascii.eqb_sym a c). destruct (Ascii.eqb c a); simpl; now rewrite IH.
Qed.

Lemma endswith_app (p a : string) : PyStr.endswith p (a ++ p) = true.
Proof.
  induction a as [|c a IH]; simpl.
  - destruct p; simpl; [reflexivity|]. now rewrite Ascii.eqb_refl, String.eqb_refl.
  - rewrite IH. apply orb_true_r.
Qed.

(** Case analysis on the leading character tests of a [startswith] on a
    literal pattern; the tests that succeed leave their equations behind. *)
Ltac split_char_tests :=
  repeat match goal with
         | |- context [Ascii.eqb ?x ?y] =>
             let E := fresh "E" in
             destruct (Ascii.eqb x y) eqn:E;
             [apply Ascii.eqb_eq in E; try discriminate E; subst | clear E];
             cbn [andb]
         end.

(** An occurrence of "/song/" can run over the end of [pre] only when [pre]
    ends with "/song". *)
Lemma straddle_free_song (pre tail : string) :
  PyStr.endswith "/song" pre = false -> straddle_free "/song/" pre tail.
Proof.
  intros Hend a b -> Hne Hlen.
  destruct b as [|c1 [|c2 [|c3 [|c4 [|c5 [|c6 b]]]]]];
    [now elim Hne | | | | | | simpl in Hlen; lia];
    cbn [PyStr.startswith append]; split_char_tests; try reflexivity.
  rewrite endswith_app in Hend. discriminate.
Qed.

(** An occurrence of "/track/" can run over the end of [pre] only when [pre]
    ends with "/track". *)
Lemma straddle_free_track (pre tail : string) :
  PyStr.endswith "/track" pre = false -> straddle_free "/track/" pre tail.
Proof.
  intros Hend a b -> Hne Hlen.
  destruct b as [|c1 [|c2 [|c3 [|c4 [|c5 [|c6 [|c7 b]]]]]]];
    [now elim Hne | | | | | | | simpl in Hlen; lia];
    cbn [PyStr.startswith append]; split_char_tests; try reflexivity.
  rewrite endswith_app in Hend. discriminate.
Qed.

(** ** Spotify track identifier *)

(** C5.  For a URL that reads [pre ++ "/track/" ++ id ++ rest], where [id]
    holds no "?" and [rest] is empty or opens with "?" (and no further
    "/track/" follows), the identifier sent to the catalogue is [id]: what
    follows "/track/", cut at the first "?".  In particular the identifier of
    "https://open.spotify.com/track/3n3Ppam7vgaVa1iaRUc9Lp?si=abc" is
    "3n3Ppam7vgaVa1iaRUc9Lp". *)
Theorem track_id_of_url (pre id rest : string) :
  PyStr.endswith "/track" pre = false ->
  PyStr.contains "/track/" (id ++ rest) = false ->
  PyStr.has_char "?" id = false ->
  rest = "" \/ (exists r, rest = "?" ++ r) ->
  track_id_of (pre ++ "/track/" ++ id ++ rest) = id /\
  track_id_of "https://open.spotify.com/track/3n3Ppam7vgaVa1iaRUc9Lp?si=abc"
  = "3n3Ppam7vgaVa1iaRUc9Lp".
Proof.
  intros Hpre Htail Hid Hrest. split; [|reflexivity].
  unfold track_id_of.
  rewrite last_piece_after by (try exact Htail; now apply straddle_free_track).
  now apply first_piece_before.
Qed.

Lemma track_id_of_url_witness :
  track_id_of ("https://open.spotify.com" ++ "/track/"
               ++ "3n3Ppam7vgaVa1iaRUc9Lp" ++ "?si=abc")
  = "3n3Ppam7vgaVa1iaRUc9Lp".
Proof.
  apply (track_id_of_url "https://open.spotify.com" "3n3Ppam7vgaVa1iaRUc9Lp" "?si=abc").
  - reflexivity.
  - reflexivity.
  - reflexivity.
  - right. exists "si=abc". reflexivity.
Defined.

(** ** Running computations *)

Lemma bind_lift_ok {A B} (a : A) (k : A -> M B) (w : World) :
  bind (lift (Ok a)) k w = k a w.
Proof. unfold bind, lift. now destruct (k a w). Qed.

Lemma bind_lift_raise {A B} (e : exn) (k : A -> M B) (w : World) :
  bind (lift (Raise e)) k w = (Raise e, []).
Proof. reflexivity. Qed.

Lemma bind_call {B} (q : Request) (k : json -> M B) (w : World) :
  bind (call q) k w
  = match w q with
    | Ok a => (fst (k a w), q :: snd (k a w))
    | Raise e => (Raise e, [q])
    end.
Proof. unfold bind, call. destruct (w q); [now destruct (k a w) | reflexivity]. Qed.

Section ProgramFacts.

Variable py_str : json -> string.
Hypothesis py_str_str : forall s, py_str (JStr s) = s.

(** The search-mode download makes one call to yt-dlp and reports whether
    it came back with a dict. *)
Lemma download_youtube_run (self : AudioDownloader) (query quality : string)
    (w : World) :
  download_youtube self query quality w
  = (Ok match w (YdlExtract ("ytsearch1:" ++ query) (search_options self quality)) with
        | Ok (JObj _) => true
        | _ => false
        end,
     [YdlExtract ("ytsearch1:" ++ query) (search_options self quality)]).
Proof.
  unfold download_youtube, try_except. rewrite bind_call.
  destruct (w _) as [info | e]; [|reflexivity].
  destruct info; reflexivity.
Qed.

(** The direct attempt makes one call to yt-dlp, whatever comes of it. *)
Lemma jiosaavn_direct_requests (self : AudioDownloader) (url quality : string)
    (w : World) :
  snd (jiosaavn_direct self url quality w)
  = [YdlExtract url (get_download_options self quality)].
Proof.
  unfold jiosaavn_direct. rewrite bind_call.
  destruct (w _) as [info | e]; [|reflexivity].
  cbn [snd]. f_equal.
  destruct info; try reflexivity.
  cbn [Py.get]. rewrite !bind_lift_ok.
  destruct (Py.as_int _); reflexivity.
Qed.

(** ** Rejected URLs *)

(** C8.  When the URL the run works on is classified [other], [main] ends in
    [Failed] at once: it makes no call at all, so no network request, no
    resolver and no download. *)
Theorem other_url_fails_immediately (w : World) (url_in quality_in : string) :
  detect_url_type (effective_url url_in) = other ->
  main py_str url_in quality_in w
  = (Ok {| status := Failed; duration_shown := None |}, []).
Proof.
  intros H. unfold main. now rewrite H.
Qed.

(** ** JioSaavn fallback *)

(** The phrase is the segment between "/song/" and the next "/", with every
    hyphen turned into a space. *)
Lemma song_name_of_url (pre seg rest : string) :
  PyStr.endswith "/song" pre = false ->
  PyStr.contains "/song/" (seg ++ rest) = false ->
  PyStr.has_char "/" seg = false ->
  rest = "" \/ (exists r, rest = String "/" r) ->
  song_name_of (pre ++ "/song/" ++ seg ++ rest)
  = PyStr.map_chars hyphen_to_space seg.
Proof.
  intros Hpre Htail Hseg Hrest. unfold song_name_of.
  rewrite last_piece_after by (try exact Htail; now apply straddle_free_song).
  rewrite first_piece_before by assumption.
  apply replace_char.
Qed.

(** C4.  In the JioSaavn branch, when the direct attempt raises, [main] makes
    exactly two calls: the direct one and one search-mode download, whose
    phrase is [song_name_of] of the URL; the run ends with what that search
    reports and nothing is tried after it.  For a URL that reads
    [pre ++ "/song/" ++ seg ++ rest] the phrase is [seg] with every hyphen
    replaced by a space, and for ".../song/slava-funk/Mi8IRkxDAUM" it is
    "slava funk". *)
Theorem jiosaavn_fallback_once (w : World) (url_in quality_in : string)
    (e : exn) (l : list Request) :
  detect_url_type (effective_url url_in) = jiosaavn ->
  jiosaavn_direct {| output_dir := "downloads" |} (effective_url url_in)
                  (effective_quality quality_in) w = (Raise e, l) ->
  (exists rep,
      main py_str url_in quality_in w
      = (Ok rep,
         [YdlExtract (effective_url url_in)
                     (get_download_options {| output_dir := "downloads" |}
                                           (effective_quality quality_in));
          YdlExtract ("ytsearch1:" ++ song_name_of (effective_url url_in))
                     (search_options {| output_dir := "downloads" |}
                                     (effective_quality quality_in))]) /\
      duration_shown rep = None /\
      status rep
      = match w (YdlExtract ("ytsearch1:" ++ song_name_of (effective_url url_in))
                            (search_options {| output_dir := "downloads" |}
                                            (effective_quality quality_in))) with
        | Ok (JObj _) => Succeeded
        | _ => Failed
        end) /\
  (forall pre seg rest,
      PyStr.endswith "/song" pre = false ->
      PyStr.contains "/song/" (seg ++ rest) = false ->
      PyStr.has_char "/" seg = false ->
      rest = "" \/ (exists r, rest = String "/" r) ->
      song_name_of (pre ++ "/song/" ++ seg ++ rest)
      = PyStr.map_chars hyphen_to_space seg) /\
  (forall pre,
      PyStr.endswith "/song" pre = false ->
      song_name_of (pre ++ "/song/slava-funk/Mi8IRkxDAUM") = "slava funk").
Proof.
  intros Htype Hdirect. split; [|split].
  - pose proof (jiosaavn_direct_requests {| output_dir := "downloads" |}
                  (effective_url url_in) (effective_quality quality_in) w) as Hl.
    rewrite Hdirect in Hl. cbn [snd] in Hl. subst l.
    assert (Hmain : main py_str url_in quality_in w
              = (Ok {| status :=
                         if match w (YdlExtract
                                       ("ytsearch1:" ++ song_name_of (effective_url url_in))
                                       (search_options {| output_dir := "downloads" |}
                                          (effective_quality quality_in))) with
                            | Ok (JObj _) => true
                            | _ => false
                            end
                         then Succeeded else Failed;
                       duration_shown := None |},
                 [YdlExtract (effective_url url_in)
                    (get_download_options {| output_dir := "downloads" |}
                       (effective_quality quality_in));
                  YdlExtract ("ytsearch1:" ++ song_name_of (effective_url url_in))
                    (search_options {| output_dir := "downloads" |}
                       (effective_quality quality_in))])).
    { unfold main. rewrite Htype. unfold try_except. rewrite Hdirect.
      unfold jiosaavn_fallback, bind. rewrite download_youtube_run. reflexivity. }
    eexists. split; [exact Hmain|]. split; [reflexivity|].
    cbn [status]. destruct (w _) as [[]|]; reflexivity.
  - exact song_name_of_url.
  - intros pre Hpre.
    apply (song_name_of_url pre "slava-funk" "/Mi8IRkxDAUM");
      [exact Hpre | reflexivity | reflexivity | right; now exists "Mi8IRkxDAUM"].
Qed.

(** ** Spotify branch *)

Lemma fetch_track_total (self : SpotifyAPI) (track_url : string) (w : World) :
  exists t l,
    fetch_track py_str self track_url w = (Ok (t, self), l) /\
    List.filter is_download l = [].
Proof.
  unfold fetch_track, try_except. rewrite bind_call.
  destruct (w _) as [response | e]; eexists _, _; split; reflexivity.
Qed.

(** Resolving the metadata always returns, and never asks yt-dlp for audio. *)
Lemma get_track_info_total (self : SpotifyAPI) (track_url : string) (w : World) :
  exists t self' l,
    get_track_info py_str self track_url w = (Ok (t, self'), l) /\
    List.filter is_download l = [].
Proof.
  unfold get_track_info.
  destruct (negb (Py.truthy (access_token self))).
  - unfold get_access_token, try_except, bind at 1. rewrite bind_call.
    destruct (w _) as [response | e].
    + destruct (Py.getitem_str response "access_token") as [token | e] eqn:Htok.
      * rewrite bind_lift_ok. cbn [fst snd ret negb].
        match goal with
        | |- context [fetch_track py_str ?s track_url w] =>
            destruct (fetch_track_total s track_url w) as [t [l [Hf Hl]]];
            rewrite Hf
        end.
        eexists _, _, _. split; [reflexivity|].
        cbn [List.filter is_download List.app]. exact Hl.
      * rewrite bind_lift_raise. cbn.
        eexists _, _, _. split; reflexivity.
    + cbn. eexists _, _, _. split; reflexivity.
  - destruct (fetch_track_total self track_url w) as [t [l [Hf Hl]]].
    rewrite Hf. now eexists _, _, _.
Qed.

Lemma traverse_artist_names (artists : list json) (names : list string) :
  Forall2 artist_named artists names ->
  traverse (fun artist => Py.getitem_str artist "name") artists
  = Ok (List.map JStr names).
Proof.
  induction 1 as [|a n artists names [fields [-> Hn]] _ IH]; [reflexivity|].
  cbn [traverse Py.getitem_str rbind List.map]. now rewrite Hn, IH.
Qed.

Lemma join_values_strings (sep : string) (names : list string) :
  join_values sep (List.map JStr names) = Ok (PyStr.join sep names).
Proof.
  unfold join_values.
  enough (traverse (fun v => match v with JStr s => Ok s | _ => Raise TypeError end)
                   (List.map JStr names) = Ok names) as -> by reflexivity.
  induction names as [|n names IH]; [reflexivity|].
  cbn [List.map traverse rbind]. now rewrite IH.
Qed.

(** C3.  In the Spotify branch the metadata resolver always returns and never
    asks for audio.  When it returns [None], [main] ends in [Failed] having
    made the resolver's calls only: no download, no fallback.  When it returns
    a track object, [main] goes on to exactly one more call, a search-mode
    download whose phrase is the track name, a space, and the artist names
    joined by spaces. *)
Theorem spotify_branch_flow (w : World) (url_in quality_in : string) :
  detect_url_type (effective_url url_in) = spotify ->
  exists t self' l,
    get_track_info py_str (SpotifyAPI_init SPOTIFY_CLIENT_ID SPOTIFY_CLIENT_SECRET)
                   (effective_url url_in) w = (Ok (t, self'), l) /\
    List.filter is_download l = [] /\
    (t = JNull ->
     main py_str url_in quality_in w
     = (Ok {| status := Failed; duration_shown := None |}, l)) /\
    (forall fields nm names ms,
        t = JObj fields ->
        track_object fields nm names ms ->
        exists st,
          main py_str url_in quality_in w
          = (Ok {| status := st; duration_shown := Some (duration_text_ms ms) |},
             (l ++ [YdlExtract ("ytsearch1:" ++ nm ++ " " ++ PyStr.join " " names)
                               (search_options {| output_dir := "downloads" |}
                                               (effective_quality quality_in))])%list) /\
          is_search (YdlExtract ("ytsearch1:" ++ nm ++ " " ++ PyStr.join " " names)
                                (search_options {| output_dir := "downloads" |}
                                                (effective_quality quality_in)))
          = true).
Proof.
  intros Htype.
  destruct (get_track_info_total
              (SpotifyAPI_init SPOTIFY_CLIENT_ID SPOTIFY_CLIENT_SECRET)
              (effective_url url_in) w) as [t [self' [l [Hinfo Hl]]]].
  exists t, self', l. split; [exact Hinfo|]. split; [exact Hl|]. split.
  - intros ->. unfold main. rewrite Htype.
    unfold spotify_branch, bind at 1. rewrite Hinfo.
    cbn [Py.truthy negb ret]. now rewrite app_nil_r.
  - intros fields nm names ms -> [Hname [[artists [Hartists Hnamed]] [Halbum Hms]]].
    unfold main. rewrite Htype.
    unfold spotify_branch, bind at 1. rewrite Hinfo.
    assert (Htruthy : Py.truthy (JObj fields) = true)
      by (destruct fields; [discriminate Hname | reflexivity]).
    rewrite Htruthy. cbn [negb].
    cbn [Py.get rbind]. rewrite Hname, Hartists, Hms.
    destruct Halbum as [Halbum | [album Halbum]]; rewrite Halbum;
    cbn [Py.iter Py.get rbind Py.as_int];
    rewrite !bind_lift_ok;
    rewrite (traverse_artist_names _ _ Hnamed); rewrite !bind_lift_ok;
    rewrite !join_values_strings; rewrite !bind_lift_ok;
    unfold bind at 1; rewrite download_youtube_run; cbn [ret];
    rewrite py_str_str;
    (eexists; split; [reflexivity|]);
    cbn [is_search]; apply (startswith_app "ytsearch1:").
Qed.

(** ** Duration display *)

Lemma format_02d_two_digits (r : Z) :
  (0 <= r < 60)%Z -> String.length (Py.format_02d r) = 2.
Proof.
  intros Hr.
  assert (Hall : List.forallb
                   (fun n => Nat.eqb (String.length (Py.format_02d (Z.of_nat n))) 2)
                   (List.seq 0 60) = true) by (vm_compute; reflexivity).
  rewrite List.forallb_forall in Hall.
  specialize (Hall (Z.to_nat r)).
  rewrite Z2Nat.id in Hall by lia.
  apply Nat.eqb_eq, Hall, List.in_seq. lia.
Qed.

(** C9.  The duration is shown as minutes, a colon and the seconds on two
    zero-padded digits; the minutes are the whole quotient and are not carried
    into hours.  From seconds: minutes [d / 60], seconds [d mod 60], so 125
    gives "2:05".  From milliseconds: minutes [ms / 60000], seconds
    [(ms mod 60000) / 1000], so 3661000 gives "61:01".  Both runs of [main]
    show these texts. *)
Theorem duration_display :
  (forall d, duration_text_seconds d
             = Py.str_int (d / 60) ++ ":" ++ Py.format_02d (d mod 60)) /\
  (forall ms, duration_text_ms ms
              = Py.str_int (ms / 60000) ++ ":" ++ Py.format_02d ((ms mod 60000) / 1000)) /\
  (forall d, String.length (Py.format_02d (d mod 60)) = 2) /\
  (forall ms, String.length (Py.format_02d ((ms mod 60000) / 1000)) = 2) /\
  duration_text_seconds 125 = "2:05" /\
  duration_text_ms 3661000 = "61:01" /\
  fst (main py_str "https://www.jiosaavn.com/song/slava-funk/Mi8IRkxDAUM" "1" sample_world)
  = Ok {| status := Succeeded; duration_shown := Some "2:05" |} /\
  fst (main py_str "https://open.spotify.com/track/3n3Ppam7vgaVa1iaRUc9Lp?si=abc" "1"
            sample_world)
  = Ok {| status := Succeeded; duration_shown := Some "61:01" |}.
Proof.
  split; [reflexivity|]. split; [reflexivity|].
  split; [|split; [|repeat split]].
  - intros d. apply format_02d_two_digits. apply Z.mod_pos_bound. lia.
  - intros ms. apply format_02d_two_digits.
    pose proof (Z.mod_pos_bound ms 60000 ltac:(lia)) as Hm.
    split; [apply Z.div_pos; lia | apply Z.div_lt_upper_bound; lia].
Qed.

End ProgramFacts.


(** ** Quality presets *)

(** C6.  A choice key other than "1", "2" and "3" resolves to the preset of
    key "1", which is M4A at bitrate 320, and yields the same yt-dlp options;
    in particular "4" resolves as "1" does. *)
Theorem unknown_choice_is_preset_1 (k : string) :
  k <> "1" -> k <> "2" -> k <> "3" ->
  resolve_preset k = resolve_preset "1" /\
  resolve_preset "1"
  = {| name := "M4A 320kbps (Best Quality)"; codec := "m4a"; bitrate := Some "320" |} /\
  (forall self, get_download_options self k = get_download_options self "1") /\
  resolve_preset "4" = resolve_preset "1".
Proof.
  intros H1 H2 H3.
  assert (Hk : resolve_preset k = resolve_preset "1").
  { unfold resolve_preset. cbn [presets_get QUALITY_PRESETS].
    destruct (String.eqb_spec k "1"); [contradiction|].
    destruct (String.eqb_spec k "2"); [contradiction|].
    destruct (String.eqb_spec k "3"); [contradiction|].
    reflexivity. }
  repeat split; try exact Hk.
  intros self. unfold get_download_options. now rewrite Hk.
Qed.

Lemma unknown_choice_is_preset_1_witness :
  resolve_preset "4" = resolve_preset "1" /\
  resolve_preset "1"
  = {| name := "M4A 320kbps (Best Quality)"; codec := "m4a"; bitrate := Some "320" |}.
Proof.
  assert (H : "4" <> "1" /\ "4" <> "2" /\ "4" <> "3")
    by (repeat split; discriminate).
  destruct H as [H1 [H2 H3]].
  destruct (unknown_choice_is_preset_1 "4" H1 H2 H3) as [Ha [Hb _]].
  split; [exact Ha | exact Hb].
Defined.

(** C7.  Preset "3" has no bitrate and its options carry an empty list of
    post-processors: nothing is transcoded.  Presets "1" and "2" carry one
    audio-extraction post-processor, set to the preset's codec and bitrate:
    m4a at 320, opus at 160.  The search-mode download uses the same
    post-processors. *)
Theorem preset_directives (self : AudioDownloader) :
  bitrate (resolve_preset "3") = None /\
  postprocessors (get_download_options self "3") = [] /\
  (codec (resolve_preset "1") = "m4a" /\ bitrate (resolve_preset "1") = Some "320") /\
  postprocessors (get_download_options self "1")
  = [ {| key := "FFmpegExtractAudio"; preferredcodec := "m4a";
         preferredquality := Some "320" |} ] /\
  (codec (resolve_preset "2") = "opus" /\ bitrate (resolve_preset "2") = Some "160") /\
  postprocessors (get_download_options self "2")
  = [ {| key := "FFmpegExtractAudio"; preferredcodec := "opus";
         preferredquality := Some "160" |} ] /\
  (forall k, postprocessors (search_options self k)
             = postprocessors (get_download_options self k)).
Proof. repeat split. Qed.
(** ** JioSaavn audio URL *)

(** [decrypt_url] catches every exception: it always returns. *)
Lemma decrypt_url_total (encrypted_url : json) (quality : string) (w : World) :
  exists v l, JioSaavnAPI.decrypt_url encrypted_url quality w = (Ok v, l).
Proof.
  unfold JioSaavnAPI.decrypt_url, try_except. rewrite bind_call.
  destruct (w _) as [data | e]; [|now eexists _, _].
  destruct (Py.contains_str "auth_url" data) as [[|] | e] eqn:Hin.
  - rewrite bind_lift_ok. unfold lift.
    destruct (Py.getitem_str data "auth_url"); now eexists _, _.
  - rewrite bind_lift_ok. now eexists _, _.
  - rewrite bind_lift_raise. now eexists _, _.
Qed.

(** C10.  For song details that are a dict: when the key
    "encrypted_media_url" is present, [get_audio_url] is exactly the decryption
    of its value, whatever the dict holds under "media_preview_url"; the
    preview URL is returned only when "encrypted_media_url" is absent.  So
    when decryption fails the answer is [None] even though a preview URL is at
    hand. *)
Theorem encrypted_url_has_precedence (fields : list (string * json))
    (quality : string) (w : World) :
  JioSaavnAPI.get_audio_url (JObj fields) quality w
  = match Py.lookup "encrypted_media_url" fields with
    | Some encrypted_url => JioSaavnAPI.decrypt_url encrypted_url quality w
    | None =>
        (Ok match Py.lookup "media_preview_url" fields with
            | Some preview => preview
            | None => JNull
            end, [])
    end /\
  fst (JioSaavnAPI.get_audio_url
         (JObj [("media_preview_url", JStr "https://preview.saavncdn.com/p.mp4");
                ("encrypted_media_url", JStr "ID2ieOjCrwfgWvL5")])
         "320" offline_world)
  = Ok JNull.
Proof.
  split; [|reflexivity].
  unfold JioSaavnAPI.get_audio_url, try_except.
  cbn [Py.contains_str Py.getitem_str].
  destruct (Py.lookup "encrypted_media_url" fields) as [enc |].
  - rewrite !bind_lift_ok.
    destruct (decrypt_url_total enc quality w) as [v [l Hd]]. now rewrite Hd.
  - rewrite !bind_lift_ok.
    destruct (Py.lookup "media_preview_url" fields); reflexivity.
Qed.

(** ** JioSaavn details *)

Lemma lookup_of_entry (d : list (string * json)) (k : string) (v : json) :
  NoDup (Py.keys d) -> In (k, v) d -> Py.lookup k d = Some v.
Proof.
  induction d as [|[k' v'] d IH]; intros Hnd Hin; [destruct Hin|].
  cbn [Py.keys List.map fst] in Hnd. inversion Hnd as [|? ? Hnotin Hnd']; subst.
  cbn [Py.lookup]. destruct Hin as [Heq | Hin].
  - injection Heq as -> ->. now rewrite String.eqb_refl.
  - destruct (String.eqb_spec k k') as [-> | Hne]; [|now apply IH].
    elim Hnotin. change k' with (fst (k', v)). now apply List.in_map.
Qed.

(** On a dict, the loop over the keys returns the first dict-valued entry. *)
Lemma first_dict_value_entries (d rest : list (string * json)) :
  NoDup (Py.keys d) ->
  List.incl rest d ->
  JioSaavnAPI.first_dict_value (JObj d) (Py.keys rest) = Ok (first_dict_entry rest).
Proof.
  intros Hnd. induction rest as [|[k v] rest IH]; intros Hincl; [reflexivity|].
  cbn [Py.keys List.map fst JioSaavnAPI.first_dict_value Py.getitem_str].
  rewrite (lookup_of_entry d k v Hnd) by (apply Hincl; now left).
  cbn [rbind first_dict_entry].
  assert (Hrest : JioSaavnAPI.first_dict_value (JObj d) (Py.keys rest)
                  = Ok (first_dict_entry rest))
    by (apply IH; intros x Hx; apply Hincl; now right).
  destruct v; cbn [Py.isinstance_dict]; try exact Hrest. reflexivity.
Qed.

(** What [get_song_details] returns when the details endpoint answers. *)
Lemma get_song_details_response (song_url : string) (data : json) (w : World) :
  (forall url bearer params, w (HttpGet url bearer params) = Ok data) ->
  fst (JioSaavnAPI.get_song_details song_url w)
  = Ok (details_of_response (JioSaavnAPI.song_id_of song_url) data).
Proof.
  intros Hw. unfold JioSaavnAPI.get_song_details, try_except, details_of_response.
  rewrite bind_call, Hw. unfold lift.
  destruct (JioSaavnAPI.song_from_data _ data); reflexivity.
Qed.

(** C2, as amended.  For a decoded dict whose "songs" entry, if there is one,
    is a list, the details are found by the ordered chain: the value under the
    requested id; else the first element of a non-empty "songs" list; else the
    value of the first dict-valued entry; else [None].  The four responses of
    the specification follow. *)
Theorem details_chain_when_songs_is_list
    (song_id : string) (fields : list (string * json)) :
  NoDup (Py.keys fields) ->
  Py.lookup "songs" fields = None \/
  (exists songs, Py.lookup "songs" fields = Some (JArr songs)) ->
  details_of_response song_id (JObj fields) = details_chain_spec song_id fields /\
  details_of_response "songid123" (JObj [("songid123", JObj [("id", JStr "songid123")])])
  = JObj [("id", JStr "songid123")] /\
  details_of_response "songid123" (JObj [("songs", JArr [JObj [("id", JStr "a")]])])
  = JObj [("id", JStr "a")] /\
  details_of_response "songid123" (JObj [("unexpected_key", JObj [("id", JStr "b")])])
  = JObj [("id", JStr "b")] /\
  details_of_response "songid123" (JObj []) = JNull /\
  details_of_response "songid123" (JObj [("songs", JArr []); ("status", JStr "x")]) = JNull.
Proof.
  intros Hnd Hsongs. split; [|repeat split].
  unfold details_of_response, JioSaavnAPI.song_from_data, details_chain_spec.
  cbn [Py.contains_str Py.getitem_str rbind].
  destruct (Py.lookup song_id fields) as [v |]; [reflexivity|].
  destruct Hsongs as [Hs | [songs Hs]]; rewrite Hs; cbn [rbind Py.len].
  - now rewrite first_dict_value_entries by (try exact Hnd; apply List.incl_refl).
  - destruct songs as [|first songs]; cbn [List.length Nat.ltb Nat.leb Py.getitem_0].
    + now rewrite first_dict_value_entries by (try exact Hnd; apply List.incl_refl).
    + reflexivity.
Qed.

Lemma details_chain_when_songs_is_list_witness :
  details_of_response "Mi8IRkxDAUM"
    (JObj [("status", JStr "ok"); ("songs", JArr []);
           ("result", JObj [("id", JStr "Mi8IRkxDAUM")])])
  = JObj [("id", JStr "Mi8IRkxDAUM")].
Proof.
  refine (proj1 (details_chain_when_songs_is_list "Mi8IRkxDAUM"
                   [("status", JStr "ok"); ("songs", JArr []);
                    ("result", JObj [("id", JStr "Mi8IRkxDAUM")])] _ _)).
  - repeat constructor; simpl; intuition discriminate.
  - right. exists []. reflexivity.
Defined.

(** What the code does when "songs" is present and is not a list.  With a
    dict under "songs" it gives up with [None] where the chain reaches its
    third step and returns that dict; with a number under "songs" it gives up
    with [None] although a later entry is a dict; with a string under "songs"
    it returns the first character of the string where the chain ends in
    [None]. *)
Lemma songs_entry_not_a_list :
  (details_of_response "Mi8IRkxDAUM"
     (JObj [("songs", JObj [("id", JStr "Mi8IRkxDAUM")])]) = JNull /\
   details_chain_spec "Mi8IRkxDAUM"
     [("songs", JObj [("id", JStr "Mi8IRkxDAUM")])]
   = JObj [("id", JStr "Mi8IRkxDAUM")]) /\
  (details_of_response "Mi8IRkxDAUM"
     (JObj [("songs", JInt 1); ("song", JObj [("id", JStr "Mi8IRkxDAUM")])]) = JNull /\
   details_chain_spec "Mi8IRkxDAUM"
     [("songs", JInt 1); ("song", JObj [("id", JStr "Mi8IRkxDAUM")])]
   = JObj [("id", JStr "Mi8IRkxDAUM")]) /\
  (details_of_response "Mi8IRkxDAUM" (JObj [("songs", JStr "none")]) = JStr "n" /\
   details_chain_spec "Mi8IRkxDAUM" [("songs", JStr "none")] = JNull) /\
  fst (JioSaavnAPI.get_song_details
         "https://www.jiosaavn.com/song/slava-funk/Mi8IRkxDAUM"
         (details_world (JObj [("songs", JObj [("id", JStr "Mi8IRkxDAUM")])])))
  = Ok JNull.
Proof. repeat split. Qed.

(** C2, as stated, fails: the response [{"songs": {"id": "Mi8IRkxDAUM"}}] is a
    dict, the id is not a key of it and "songs" is not a non-empty list, so
    the chain returns the first dict-valued entry, the value of "songs"; the
    code returns [None]. *)
Lemma details_chain_fails_on_dict_songs :
  ~ (forall song_id fields,
        NoDup (Py.keys fields) ->
        details_of_response song_id (JObj fields) = details_chain_spec song_id fields).
Proof.
  intros H.
  specialize (H "Mi8IRkxDAUM" [("songs", JObj [("id", JStr "Mi8IRkxDAUM")])]).
  assert (Hnd : NoDup (Py.keys [("songs", JObj [("id", JStr "Mi8IRkxDAUM")])]))
    by (repeat constructor; simpl; intuition).
  specialize (H Hnd). discriminate H.
Qed.

(** ** Runs of the orchestrator *)

Lemma other_url_fails_immediately_witness :
  main str_of_scalar "other-domain.com/x" "2" (fun _ => Raise RequestError)
  = (Ok {| status := Failed; duration_shown := None |}, []).
Proof.
  apply other_url_fails_immediately. reflexivity.
Defined.

Lemma jiosaavn_fallback_once_witness :
  exists rep,
    main str_of_scalar "" "" offline_world
    = (Ok rep,
       [YdlExtract "https://www.jiosaavn.com/song/slava-funk/Mi8IRkxDAUM"
                   (get_download_options {| output_dir := "downloads" |} "1");
        YdlExtract "ytsearch1:slava funk"
                   (search_options {| output_dir := "downloads" |} "1")]) /\
    duration_shown rep = None /\
    status rep = Failed.
Proof.
  exact (proj1 (jiosaavn_fallback_once str_of_scalar offline_world "" ""
                  DownloadError
                  [YdlExtract "https://www.jiosaavn.com/song/slava-funk/Mi8IRkxDAUM"
                              (get_download_options {| output_dir := "downloads" |} "1")]
                  eq_refl eq_refl)).
Defined.

Lemma spotify_branch_flow_witness :
  (exists st,
      main str_of_scalar "https://open.spotify.com/track/3n3Ppam7vgaVa1iaRUc9Lp?si=abc"
           "2" sample_world
      = (Ok {| status := st; duration_shown := Some "61:01" |},
         [HttpPost "https://accounts.spotify.com/api/token"
                   (SPOTIFY_CLIENT_ID, SPOTIFY_CLIENT_SECRET)
                   [("grant_type", "client_credentials")];
          HttpGet "https://api.spotify.com/v1/tracks/3n3Ppam7vgaVa1iaRUc9Lp"
                  (Some "token") [];
          YdlExtract "ytsearch1:Slava Funk MVSTERIOUS Hxmr"
                     (search_options {| output_dir := "downloads" |} "2")])) /\
  main str_of_scalar "https://open.spotify.com/track/3n3Ppam7vgaVa1iaRUc9Lp?si=abc"
       "2" offline_world
  = (Ok {| status := Failed; duration_shown := None |},
     [HttpPost "https://accounts.spotify.com/api/token"
               (SPOTIFY_CLIENT_ID, SPOTIFY_CLIENT_SECRET)
               [("grant_type", "client_credentials")]]).
Proof.
  split.
  - destruct (spotify_branch_flow str_of_scalar (fun s => eq_refl) sample_world
                "https://open.spotify.com/track/3n3Ppam7vgaVa1iaRUc9Lp?si=abc" "2"
                eq_refl)
      as [t [self' [l [Hinfo [_ [_ Hobj]]]]]].
    vm_compute in Hinfo. injection Hinfo as <- _ <-.
    destruct (Hobj _ "Slava Funk" ["MVSTERIOUS"; "Hxmr"] 3661000%Z eq_refl)
      as [st [Hmain _]].
    + split; [reflexivity|]. split; [|split; [right; eexists; reflexivity | reflexivity]].
      eexists. split; [reflexivity|].
      repeat constructor; eexists; split; reflexivity.
    + exists st. exact Hmain.
  - destruct (spotify_branch_flow str_of_scalar (fun s => eq_refl) offline_world
                "https://open.spotify.com/track/3n3Ppam7vgaVa1iaRUc9Lp?si=abc" "2"
                eq_refl)
      as [t [self' [l [Hinfo [_ [Hnull _]]]]]].
    vm_compute in Hinfo. injection Hinfo as <- _ <-.
    exact (Hnull eq_refl).
Defined.

(** * Further properties *)

(** ** Pieces of a split *)

Lemma split_go_pieces (c : ascii) (s : string) :
  forall skip,
    Forall (fun piece => PyStr.has_char c piece = false)
           (PyStr.split_go (String c "") skip s).
Proof.
  induction s as [|d s IH]; intros skip; [repeat constructor|].
  destruct skip as [|k]; [|exact (IH k)].
  destruct (PyStr.startswith (String c "") (String d s)) eqn:Hhit.
  - rewrite split_go_hit by exact Hhit. constructor; [reflexivity | apply IH].
  - rewrite split_go_miss by exact Hhit.
    cbn [PyStr.startswith] in Hhit. rewrite andb_true_r in Hhit.
    pose proof (IH 0) as Hall.
    destruct (PyStr.split_go (String c "") 0 s) as [|piece rest].
    + constructor; [|constructor]. simpl. now rewrite Hhit.
    + inversion Hall as [|? ? Hp Hrest]; subst.
      constructor; [|exact Hrest]. simpl. now rewrite Hhit, Hp.
Qed.

Lemma last_piece_no_char (c : ascii) (s : string) :
  PyStr.has_char c (PyStr.last_piece (PyStr.split (String c "") s)) = false.
Proof.
  unfold PyStr.last_piece, PyStr.split.
  pose proof (split_go_pieces c s 0) as Hall.
  induction Hall as [|p l Hp Hl IH]; [reflexivity|].
  destruct l; [exact Hp | exact IH].
Qed.

Lemma first_piece_no_char (c : ascii) (s : string) :
  PyStr.has_char c (PyStr.first_piece (PyStr.split (String c "") s)) = false.
Proof.
  unfold PyStr.first_piece, PyStr.split.
  destruct (split_go_pieces c s 0); [reflexivity | assumption].
Qed.

Lemma has_char_contains (c : ascii) (s : string) :
  PyStr.has_char c s = false -> PyStr.contains (String c "") s = false.
Proof.
  induction s as [|d s IH]; intros H; [reflexivity|].
  simpl in H. apply orb_false_iff in H as [Hd Hs].
  cbn [PyStr.contains PyStr.startswith]. now rewrite Hd, (IH Hs).
Qed.

(** ** Trailing slashes *)

Lemma rstrip_no_char (c : ascii) (s : string) :
  PyStr.has_char c s = false -> Py.rstrip c s = s.
Proof.
  induction s as [|d s IH]; intros H; [reflexivity|].
  simpl in H. apply orb_false_iff in H as [Hd Hs].
  cbn [Py.rstrip]. rewrite (IH Hs). rewrite Ascii.eqb_sym in Hd.
  destruct s; [now rewrite Hd | reflexivity].
Qed.

Lemma rstrip_only_char (c : ascii) (s : string) :
  only_char c s = true -> Py.rstrip c s = "".
Proof.
  induction s as [|d s IH]; intros H; [reflexivity|].
  simpl in H. apply andb_true_iff in H as [Hd Hs].
  cbn [Py.rstrip]. now rewrite (IH Hs), Hd.
Qed.

Lemma rstrip_app_stripped (c : ascii) (s tail : string) :
  Py.rstrip c tail = "" -> Py.rstrip c (s ++ tail) = Py.rstrip c s.
Proof.
  intros Htail. induction s as [|d s IH]; [exact Htail|].
  simpl append. cbn [Py.rstrip]. now rewrite IH.
Qed.

Lemma rstrip_app_kept (c : ascii) (a b : string) :
  Py.rstrip c b <> "" -> Py.rstrip c (a ++ b) = a ++ Py.rstrip c b.
Proof.
  intros Hb. induction a as [|d a IH]; [reflexivity|].
  simpl append. cbn [Py.rstrip]. rewrite IH.
  destruct (a ++ Py.rstrip c b) eqn:E; [|reflexivity].
  destruct a; [now elim Hb | discriminate E].
Qed.

(** ** Song identifier *)

(** The identifier sent to the details endpoint never holds a "/", and
    trailing slashes of the URL do not count: for a URL that ends with a
    non-empty slash-free segment followed by any number of slashes, the
    identifier is that segment.  A URL made of slashes only has the empty
    identifier. *)
Theorem song_id_of_url (url pre id tail : string) :
  id <> "" ->
  PyStr.has_char "/" id = false ->
  only_char "/" tail = true ->
  PyStr.has_char "/" (JioSaavnAPI.song_id_of url) = false /\
  JioSaavnAPI.song_id_of (pre ++ "/" ++ id ++ tail) = id /\
  JioSaavnAPI.song_id_of tail = "".
Proof.
  intros Hid Hslash Htail. split; [|split].
  - apply last_piece_no_char.
  - unfold JioSaavnAPI.song_id_of.
    assert (Hstrip : Py.rstrip "/" (pre ++ "/" ++ id ++ tail) = pre ++ "/" ++ id).
    { assert (Hkeep : Py.rstrip "/" ("/" ++ id) = "/" ++ id).
      { rewrite rstrip_app_kept; rewrite (rstrip_no_char _ _ Hslash);
          [reflexivity | exact Hid]. }
      replace (pre ++ "/" ++ id ++ tail) with ((pre ++ "/" ++ id) ++ tail)
        by now rewrite !append_assoc.
      rewrite rstrip_app_stripped by now apply rstrip_only_char.
      rewrite rstrip_app_kept; rewrite Hkeep; [reflexivity | discriminate]. }
    rewrite Hstrip. apply last_piece_after.
    + now apply has_char_contains.
    + intros a b _ Hb Hlen. destruct b; [now elim Hb | simpl in Hlen; lia].
  - unfold JioSaavnAPI.song_id_of. now rewrite rstrip_only_char.
Qed.

Lemma song_id_of_url_witness :
  JioSaavnAPI.song_id_of
    ("https://www.jiosaavn.com/song/slava-funk" ++ "/" ++ "Mi8IRkxDAUM" ++ "//")
  = "Mi8IRkxDAUM".
Proof.
  refine (proj1 (proj2 (song_id_of_url "" "https://www.jiosaavn.com/song/slava-funk"
                          "Mi8IRkxDAUM" "//" _ eq_refl eq_refl))).
  discriminate.
Defined.

(** ** Identifiers and phrases of URLs without the marker *)

Lemma last_piece_whole (sep s : string) :
  PyStr.contains sep s = false -> PyStr.last_piece (PyStr.split sep s) = s.
Proof.
  intros H. unfold PyStr.split, PyStr.last_piece. now rewrite split_go_whole.
Qed.

Lemma map_hyphen_no_char (c : ascii) (s : string) :
  c <> " "%char ->
  PyStr.has_char c s = false ->
  PyStr.has_char c (PyStr.map_chars hyphen_to_space s) = false.
Proof.
  intros Hc. induction s as [|d s IH]; intros H; [reflexivity|].
  simpl in H. apply orb_false_iff in H as [Hd Hs].
  cbn [PyStr.map_chars PyStr.has_char]. rewrite (IH Hs), orb_false_r.
  unfold hyphen_to_space. destruct (Ascii.eqb d "-"); [|exact Hd].
  now apply Ascii.eqb_neq.
Qed.

Lemma map_hyphen_no_hyphen (s : string) :
  PyStr.has_char "-" (PyStr.map_chars hyphen_to_space s) = false.
Proof.
  induction s as [|d s IH]; [reflexivity|].
  cbn [PyStr.map_chars PyStr.has_char]. rewrite IH, orb_false_r.
  unfold hyphen_to_space. destruct (Ascii.eqb d "-") eqn:E; [reflexivity|].
  now rewrite Ascii.eqb_sym.
Qed.

(** The track identifier never holds a "?".  When the URL has no "/track/"
    at all the identifier is the URL itself up to its first "?": an album or
    playlist link is looked up as if it were a track. *)
Theorem track_id_without_marker (url seg rest : string) :
  PyStr.contains "/track/" (seg ++ rest) = false ->
  PyStr.has_char "?" seg = false ->
  rest = "" \/ (exists r, rest = String "?" r) ->
  PyStr.has_char "?" (track_id_of url) = false /\
  track_id_of (seg ++ rest) = seg.
Proof.
  intros Hno Hseg Hrest. split.
  - apply first_piece_no_char.
  - unfold track_id_of. rewrite last_piece_whole by exact Hno.
    now apply first_piece_before.
Qed.

Lemma track_id_without_marker_witness :
  track_id_of ("https://open.spotify.com/album/4aawyAB9vmqN3uQ7FjRGTy" ++ "?si=abc")
  = "https://open.spotify.com/album/4aawyAB9vmqN3uQ7FjRGTy".
Proof.
  refine (proj2 (track_id_without_marker ""
                   "https://open.spotify.com/album/4aawyAB9vmqN3uQ7FjRGTy" "?si=abc"
                   eq_refl eq_refl _)).
  right. now exists "si=abc".
Defined.

(** The fallback phrase never holds a hyphen or a slash.  When the URL has no
    "/song/" at all the phrase is the URL up to its first "/", hyphens turned
    into spaces: for an "https://..." link that is "https:". *)
Theorem song_name_without_marker (url seg rest : string) :
  PyStr.contains "/song/" (seg ++ rest) = false ->
  PyStr.has_char "/" seg = false ->
  rest = "" \/ (exists r, rest = String "/" r) ->
  (PyStr.has_char "-" (song_name_of url) = false /\
   PyStr.has_char "/" (song_name_of url) = false) /\
  song_name_of (seg ++ rest) = PyStr.map_chars hyphen_to_space seg.
Proof.
  intros Hno Hseg Hrest. split; [split|].
  - unfold song_name_of. rewrite replace_char. apply map_hyphen_no_hyphen.
  - unfold song_name_of. rewrite replace_char.
    apply map_hyphen_no_char; [discriminate | apply first_piece_no_char].
  - unfold song_name_of. rewrite last_piece_whole by exact Hno.
    rewrite first_piece_before by assumption. apply replace_char.
Qed.

Lemma song_name_without_marker_witness :
  song_name_of ("https:" ++ "//www.jiosaavn.com/album/slava-funk/abc") = "https:".
Proof.
  refine (proj2 (song_name_without_marker "" "https:"
                   "//www.jiosaavn.com/album/slava-funk/abc" eq_refl eq_refl _)).
  right. now eexists.
Defined.

(** ** Classifier: the test that never decides *)

Lemma jiosaavn_is_saavn (url : string) :
  PyStr.contains "jiosaavn.com" url = true -> PyStr.contains "saavn.com" url = true.
Proof.
  rewrite !contains_iff. intros [a [b ->]].
  exists (a ++ "jio"), b. now rewrite append_assoc.
Qed.

(** A URL that holds "jiosaavn.com" holds "saavn.com" too, so the first test
    of the second branch never decides: a URL is [jiosaavn] exactly when it
    holds "saavn.com" and not "spotify.com", and [spotify] wins over a URL
    that names both sites. *)
Theorem saavn_test_decides (url : string) :
  (detect_url_type url = jiosaavn <->
   PyStr.Substring "saavn.com" url /\ ~ PyStr.Substring "spotify.com" url) /\
  (detect_url_type url = spotify <-> PyStr.Substring "spotify.com" url) /\
  (detect_url_type url = other <->
   ~ PyStr.Substring "saavn.com" url /\ ~ PyStr.Substring "spotify.com" url).
Proof.
  unfold detect_url_type.
  rewrite <- !contains_false_iff, <- !contains_iff.
  pose proof (jiosaavn_is_saavn url) as Hsub.
  destruct (PyStr.contains "spotify.com" url);
    destruct (PyStr.contains "saavn.com" url);
    destruct (PyStr.contains "jiosaavn.com" url);
    cbn [orb]; try (specialize (Hsub eq_refl); discriminate Hsub);
    repeat split; intros; try discriminate; try reflexivity;
    repeat match goal with H : _ /\ _ |- _ => destruct H end; try discriminate.
Qed.

Lemma saavn_test_decides_witness :
  detect_url_type "https://www.saavn.com/s/song/hindi/slava-funk/Mi8IRkxDAUM" = jiosaavn.
Proof.
  apply (proj1 (saavn_test_decides _)). split.
  - exists "https://www.", "/s/song/hindi/slava-funk/Mi8IRkxDAUM". reflexivity.
  - apply contains_false_iff. reflexivity.
Defined.

(** ** JioSaavn resolver: requests and failures *)

(** [get_song_details] never raises and sends exactly one request, the
    details query for the identifier of the URL.  It answers [None] when the
    request fails and when the response is not a dict. *)
Theorem get_song_details_one_request (song_url : string) (w : World) :
  exists v,
    JioSaavnAPI.get_song_details song_url w
    = (Ok v, [song_details_request (JioSaavnAPI.song_id_of song_url)]) /\
    (forall e, w (song_details_request (JioSaavnAPI.song_id_of song_url)) = Raise e ->
               v = JNull) /\
    (forall data, w (song_details_request (JioSaavnAPI.song_id_of song_url)) = Ok data ->
                  Py.isinstance_dict data = false -> v = JNull).
Proof.
  unfold JioSaavnAPI.get_song_details, try_except. rewrite bind_call.
  change (HttpGet JioSaavnAPI.api_url None _)
    with (song_details_request (JioSaavnAPI.song_id_of song_url)).
  destruct (w _) as [data | e].
  - unfold lift. cbn [fst snd].
    destruct (JioSaavnAPI.song_from_data _ data) as [v | e] eqn:Hv.
    + exists v. split; [reflexivity|]. split; [discriminate|].
      intros data' Hdata Hd. injection Hdata as <-.
      destruct data; try discriminate Hd; cbn in Hv; now injection Hv as <-.
    + exists JNull. repeat split.
  - exists JNull. repeat split.
Qed.

Lemma get_song_details_one_request_witness :
  JioSaavnAPI.get_song_details "https://www.jiosaavn.com/song/slava-funk/Mi8IRkxDAUM"
                               offline_world
  = (Ok JNull, [song_details_request "Mi8IRkxDAUM"]).
Proof.
  destruct (get_song_details_one_request
              "https://www.jiosaavn.com/song/slava-funk/Mi8IRkxDAUM" offline_world)
    as [v [Hrun [Hfail _]]].
  rewrite (Hfail RequestError eq_refl) in Hrun. exact Hrun.
Defined.

(** The run of [decrypt_url], for any surroundings. *)
Lemma decrypt_url_run (encrypted_url : json) (quality : string) (w : World) :
  JioSaavnAPI.decrypt_url encrypted_url quality w
  = (Ok match w (auth_token_request encrypted_url quality) with
        | Ok (JObj d) => match Py.lookup "auth_url" d with
                         | Some auth_url => auth_url
                         | None => JNull
                         end
        | _ => JNull
        end,
     [auth_token_request encrypted_url quality]).
Proof.
  unfold JioSaavnAPI.decrypt_url, try_except. rewrite bind_call.
  change (HttpGet JioSaavnAPI.api_url None _)
    with (auth_token_request encrypted_url quality).
  destruct (w _) as [data | e]; [|reflexivity].
  destruct data as [| b | z | s | items | d]; try reflexivity.
  - cbn [Py.contains_str]. rewrite bind_lift_ok.
    destruct (PyStr.contains "auth_url" s); reflexivity.
  - cbn [Py.contains_str]. rewrite bind_lift_ok.
    destruct (existsb _ items); reflexivity.
  - cbn [Py.contains_str Py.getitem_str]. rewrite bind_lift_ok.
    destruct (Py.lookup "auth_url" d); reflexivity.
Qed.

(** [decrypt_url] never raises and sends exactly one request, carrying the
    encrypted URL and the bitrate.  It answers the "auth_url" entry of a dict
    response, and [None] in every other case: a failed request, a dict
    without that entry, a response that is not a dict. *)
Theorem decrypt_url_result (encrypted_url : json) (quality : string) (w : World) :
  exists v,
    JioSaavnAPI.decrypt_url encrypted_url quality w
    = (Ok v, [auth_token_request encrypted_url quality]) /\
    (forall d auth_url,
        w (auth_token_request encrypted_url quality) = Ok (JObj d) ->
        Py.lookup "auth_url" d = Some auth_url -> v = auth_url) /\
    (forall d,
        w (auth_token_request encrypted_url quality) = Ok (JObj d) ->
        Py.lookup "auth_url" d = None -> v = JNull) /\
    (forall e, w (auth_token_request encrypted_url quality) = Raise e -> v = JNull) /\
    (forall data,
        w (auth_token_request encrypted_url quality) = Ok data ->
        Py.isinstance_dict data = false -> v = JNull).
Proof.
  eexists. split; [apply decrypt_url_run|].
  repeat split.
  - intros d auth Hw Hl. now rewrite Hw, Hl.
  - intros d Hw Hl. now rewrite Hw, Hl.
  - intros e Hw. now rewrite Hw.
  - intros data Hw Hd. rewrite Hw. destruct data; try reflexivity. discriminate Hd.
Qed.

Lemma decrypt_url_result_witness :
  JioSaavnAPI.decrypt_url (JStr "ID2ieOjCrwfgWvL5") "320"
    (details_world (JObj [("auth_url", JStr "https://aac.saavncdn.com/a.mp4")]))
  = (Ok (JStr "https://aac.saavncdn.com/a.mp4"),
     [auth_token_request (JStr "ID2ieOjCrwfgWvL5") "320"]).
Proof.
  destruct (decrypt_url_result (JStr "ID2ieOjCrwfgWvL5") "320"
              (details_world (JObj [("auth_url", JStr "https://aac.saavncdn.com/a.mp4")])))
    as [v [Hrun [Hfound _]]].
  rewrite (Hfound _ _ eq_refl eq_refl) in Hrun. exact Hrun.
Defined.

(** [get_audio_url] never raises and sends at most one request.  For details
    that are not a dict (as when [get_song_details] answered [None]) it
    answers [None] and sends nothing. *)
Theorem get_audio_url_total (song_details : json) (quality : string) (w : World) :
  (exists v l,
      JioSaavnAPI.get_audio_url song_details quality w = (Ok v, l) /\
      List.length l <= 1) /\
  (Py.isinstance_dict song_details = false ->
   JioSaavnAPI.get_audio_url song_details quality w = (Ok JNull, [])).
Proof.
  assert (Hnon : Py.isinstance_dict song_details = false ->
                 JioSaavnAPI.get_audio_url song_details quality w = (Ok JNull, [])).
  { intros Hd. unfold JioSaavnAPI.get_audio_url, try_except.
    destruct song_details as [| b | z | s | items | d];
      try discriminate Hd; try reflexivity.
    - cbn [Py.contains_str]. rewrite bind_lift_ok.
      destruct (PyStr.contains "encrypted_media_url" s); [reflexivity|].
      rewrite bind_lift_ok.
      destruct (PyStr.contains "media_preview_url" s); reflexivity.
    - cbn [Py.contains_str]. rewrite bind_lift_ok.
      destruct (existsb _ items); [reflexivity|].
      rewrite bind_lift_ok.
      destruct (existsb _ items); reflexivity. }
  split; [|exact Hnon].
  destruct (Py.isinstance_dict song_details) eqn:Hd.
  - destruct song_details; try discriminate Hd.
    unfold JioSaavnAPI.get_audio_url, try_except.
    cbn [Py.contains_str Py.getitem_str].
    destruct (Py.lookup "encrypted_media_url" fields) as [enc |].
    + rewrite !bind_lift_ok. rewrite decrypt_url_run.
      eexists _, _. split; [reflexivity | simpl; lia].
    + rewrite !bind_lift_ok.
      destruct (Py.lookup "media_preview_url" fields);
        eexists _, _; (split; [reflexivity | simpl; lia]).
  - rewrite (Hnon eq_refl). eexists _, _. split; [reflexivity | simpl; lia].
Qed.

Lemma get_audio_url_total_witness :
  JioSaavnAPI.get_audio_url JNull "320" sample_world = (Ok JNull, []).
Proof.
  exact (proj2 (get_audio_url_total JNull "320" sample_world) eq_refl).
Defined.

(** ** Spotify resolver: token and requests *)

Lemma get_access_token_run (self : SpotifyAPI) (w : World) :
  get_access_token self w
  = (Ok match w (token_request (client_id self) (client_secret self)) with
        | Ok (JObj d) => match Py.lookup "access_token" d with
                         | Some token => (true, with_token self token)
                         | None => (false, self)
                         end
        | _ => (false, self)
        end,
     [token_request (client_id self) (client_secret self)]).
Proof.
  unfold get_access_token, try_except. rewrite bind_call.
  change (HttpPost _ _ _) with (token_request (client_id self) (client_secret self)).
  destruct (w _) as [response | e]; [|reflexivity].
  destruct response as [| b | z | s | items | d]; try reflexivity.
  cbn [Py.getitem_str]. destruct (Py.lookup "access_token" d); reflexivity.
Qed.

Lemma fetch_track_run (py_str : json -> string) (self : SpotifyAPI)
    (track_url : string) (w : World) :
  fetch_track py_str self track_url w
  = (Ok (match w (track_request (py_str (access_token self)) track_url) with
         | Ok response => response
         | Raise _ => JNull
         end, self),
     [track_request (py_str (access_token self)) track_url]).
Proof.
  unfold fetch_track, try_except. rewrite bind_call.
  change (HttpGet _ _ _) with (track_request (py_str (access_token self)) track_url).
  destruct (w _); reflexivity.
Qed.

(** [get_access_token] never raises and sends one token request.  It answers
    [True] and stores the token exactly when the response is a dict with an
    "access_token" entry; otherwise it answers [False] and leaves the object
    as it was. *)
Theorem get_access_token_result (self : SpotifyAPI) (w : World) :
  exists ok self',
    get_access_token self w
    = (Ok (ok, self'), [token_request (client_id self) (client_secret self)]) /\
    (forall d token,
        w (token_request (client_id self) (client_secret self)) = Ok (JObj d) ->
        Py.lookup "access_token" d = Some token ->
        ok = true /\ self' = with_token self token) /\
    ((forall d, w (token_request (client_id self) (client_secret self)) = Ok (JObj d) ->
                Py.lookup "access_token" d = None) ->
     ok = false /\ self' = self).
Proof.
  rewrite get_access_token_run.
  destruct (w _) as [[| b | z | s | items | d] | e];
    try (eexists _, _; split; [reflexivity|];
         split; [intros ? ? H; discriminate H | intros _; split; reflexivity]).
  destruct (Py.lookup "access_token" d) as [token |] eqn:Hl;
    eexists _, _; (split; [reflexivity|]); split.
  - intros d' token' Hd Ht. injection Hd as <-. rewrite Hl in Ht.
    injection Ht as <-. split; reflexivity.
  - intros Hnone. specialize (Hnone d eq_refl). congruence.
  - intros d' token' Hd Ht. injection Hd as <-. congruence.
  - intros _. split; reflexivity.
Qed.

Lemma get_access_token_result_witness :
  get_access_token (SpotifyAPI_init SPOTIFY_CLIENT_ID SPOTIFY_CLIENT_SECRET) sample_world
  = (Ok (true, with_token (SpotifyAPI_init SPOTIFY_CLIENT_ID SPOTIFY_CLIENT_SECRET)
                          (JStr "token")),
     [token_request SPOTIFY_CLIENT_ID SPOTIFY_CLIENT_SECRET]).
Proof.
  destruct (get_access_token_result
              (SpotifyAPI_init SPOTIFY_CLIENT_ID SPOTIFY_CLIENT_SECRET) sample_world)
    as [ok [self' [Hrun [Hgood _]]]].
  destruct (Hgood _ _ eq_refl eq_refl) as [-> ->]. exact Hrun.
Defined.

(** With a token at hand [get_track_info] does not authenticate again: it
    sends the track request alone, under that token, leaves the object as it
    was, and answers the response, or [None] when the request fails. *)
Theorem get_track_info_reuses_token (py_str : json -> string) (self : SpotifyAPI)
    (track_url : string) (w : World) :
  Py.truthy (access_token self) = true ->
  get_track_info py_str self track_url w
  = (Ok (match w (track_request (py_str (access_token self)) track_url) with
         | Ok response => response
         | Raise _ => JNull
         end, self),
     [track_request (py_str (access_token self)) track_url]).
Proof.
  intros Htok. unfold get_track_info. rewrite Htok. apply fetch_track_run.
Qed.

Lemma get_track_info_reuses_token_witness :
  get_track_info str_of_scalar
    (with_token (SpotifyAPI_init SPOTIFY_CLIENT_ID SPOTIFY_CLIENT_SECRET) (JStr "token"))
    "https://open.spotify.com/track/3n3Ppam7vgaVa1iaRUc9Lp?si=abc" sample_world
  = (Ok (sample_track,
         with_token (SpotifyAPI_init SPOTIFY_CLIENT_ID SPOTIFY_CLIENT_SECRET)
                    (JStr "token")),
     [track_request "token" "https://open.spotify.com/track/3n3Ppam7vgaVa1iaRUc9Lp?si=abc"]).
Proof.
  exact (get_track_info_reuses_token str_of_scalar
           (with_token (SpotifyAPI_init SPOTIFY_CLIENT_ID SPOTIFY_CLIENT_SECRET)
                       (JStr "token"))
           "https://open.spotify.com/track/3n3Ppam7vgaVa1iaRUc9Lp?si=abc"
           sample_world eq_refl).
Defined.

(** Without a token [get_track_info] authenticates first.  When that fails it
    answers [None] and no track request is sent; when it succeeds the track
    request follows under the new token, which the object keeps. *)
Theorem get_track_info_authenticates (py_str : json -> string) (self : SpotifyAPI)
    (track_url : string) (w : World) :
  Py.truthy (access_token self) = false ->
  ((forall d, w (token_request (client_id self) (client_secret self)) = Ok (JObj d) ->
              Py.lookup "access_token" d = None) ->
   get_track_info py_str self track_url w
   = (Ok (JNull, self), [token_request (client_id self) (client_secret self)])) /\
  (forall d token,
      w (token_request (client_id self) (client_secret self)) = Ok (JObj d) ->
      Py.lookup "access_token" d = Some token ->
      get_track_info py_str self track_url w
      = (Ok (match w (track_request (py_str token) track_url) with
             | Ok response => response
             | Raise _ => JNull
             end, with_token self token),
         [token_request (client_id self) (client_secret self);
          track_request (py_str token) track_url])).
Proof.
  intros Htok. unfold get_track_info. rewrite Htok. cbn [negb].
  split.
  - intros Hnone. unfold bind. rewrite get_access_token_run.
    destruct (w (token_request _ _)) as [[| b | z | s | items | d] | e];
      try reflexivity.
    now rewrite (Hnone d eq_refl).
  - intros d token Hw Hl. unfold bind. rewrite get_access_token_run.
    rewrite Hw, Hl. cbn [negb]. now rewrite fetch_track_run.
Qed.

Lemma get_track_info_authenticates_witness :
  get_track_info str_of_scalar (SpotifyAPI_init SPOTIFY_CLIENT_ID SPOTIFY_CLIENT_SECRET)
    "https://open.spotify.com/track/3n3Ppam7vgaVa1iaRUc9Lp?si=abc" offline_world
  = (Ok (JNull, SpotifyAPI_init SPOTIFY_CLIENT_ID SPOTIFY_CLIENT_SECRET),
     [token_request SPOTIFY_CLIENT_ID SPOTIFY_CLIENT_SECRET]).
Proof.
  refine (proj1 (get_track_info_authenticates str_of_scalar
                   (SpotifyAPI_init SPOTIFY_CLIENT_ID SPOTIFY_CLIENT_SECRET)
                   "https://open.spotify.com/track/3n3Ppam7vgaVa1iaRUc9Lp?si=abc"
                   offline_world eq_refl) _).
  intros d H. discriminate H.
Defined.

(** ** Options and quality choice *)

(** Conversion is switched off by the choice "3" and by no other: every other
    choice, known or not, yields exactly one audio-extraction post-processor
    with a bitrate, opus at 160 for "2" and m4a at 320 for all the rest. *)
Theorem conversion_unless_3 (self : AudioDownloader) (k : string) :
  (postprocessors (get_download_options self k) = [] <-> k = "3") /\
  (k = "2" ->
   postprocessors (get_download_options self k)
   = [ {| key := "FFmpegExtractAudio"; preferredcodec := "opus";
          preferredquality := Some "160" |} ]) /\
  (k <> "2" -> k <> "3" ->
   postprocessors (get_download_options self k)
   = [ {| key := "FFmpegExtractAudio"; preferredcodec := "m4a";
          preferredquality := Some "320" |} ]).
Proof.
  unfold get_download_options, resolve_preset.
  cbn [presets_get QUALITY_PRESETS].
  destruct (String.eqb_spec k "1") as [-> | H1].
  { repeat split; intros H; try discriminate H; reflexivity. }
  destruct (String.eqb_spec k "2") as [-> | H2].
  { repeat split; intros H; try discriminate H; try reflexivity. now elim H. }
  destruct (String.eqb_spec k "3") as [-> | H3].
  { repeat split; intros H; try discriminate H; try reflexivity.
    intros H'. now elim H'. }
  repeat split; intros H; try discriminate H; try contradiction; reflexivity.
Qed.

Lemma conversion_unless_3_witness :
  postprocessors (get_download_options {| output_dir := "downloads" |} "best")
  = [ {| key := "FFmpegExtractAudio"; preferredcodec := "m4a";
         preferredquality := Some "320" |} ].
Proof.
  apply (proj2 (proj2 (conversion_unless_3 {| output_dir := "downloads" |} "best")));
    discriminate.
Defined.

(** Whatever the user types, the quality [main] works with is a key of the
    table: a key is kept, the empty line and every other text become "1".
    The downloader is therefore never handed a key it has to default. *)
Theorem effective_quality_is_a_key (quality_in : string) :
  In (effective_quality quality_in) ["1"; "2"; "3"] /\
  (In quality_in ["1"; "2"; "3"] -> effective_quality quality_in = quality_in) /\
  (~ In quality_in ["1"; "2"; "3"] -> effective_quality quality_in = "1") /\
  presets_get (effective_quality quality_in) QUALITY_PRESETS
  = Some (resolve_preset (effective_quality quality_in)).
Proof.
  unfold effective_quality, resolve_preset.
  destruct (String.eqb_spec quality_in "") as [-> | H0].
  { repeat split; try reflexivity; [now left | intros [H|[H|[H|[]]]]; discriminate H]. }
  cbn [presets_get QUALITY_PRESETS].
  destruct (String.eqb_spec quality_in "1") as [-> | H1].
  { repeat split; try reflexivity. now left. }
  destruct (String.eqb_spec quality_in "2") as [-> | H2].
  { repeat split; try reflexivity; [right; now left | intros H; elim H; right; now left]. }
  destruct (String.eqb_spec quality_in "3") as [-> | H3].
  { repeat split; try reflexivity;
      [right; right; now left | intros H; elim H; right; right; now left]. }
  repeat split; try reflexivity; [now left |].
  intros [H|[H|[H|[]]]]; congruence.
Qed.

Lemma effective_quality_is_a_key_witness :
  effective_quality "320" = "1" /\ effective_quality "2" = "2".
Proof.
  split.
  - apply (proj1 (proj2 (proj2 (effective_quality_is_a_key "320")))).
    intros [H|[H|[H|[]]]]; discriminate H.
  - apply (proj1 (proj2 (effective_quality_is_a_key "2"))). right. now left.
Defined.

(** ** Search-mode download *)

(** [download_youtube] never raises and makes one yt-dlp call, on the
    "ytsearch1:" query of the phrase, with the post-processors of the chosen
    quality.  It answers [True] exactly when yt-dlp comes back with a dict:
    an exception and an empty result both give [False]. *)
Theorem download_youtube_result (self : AudioDownloader)
    (search_query quality_choice : string) (w : World) :
  exists ok,
    download_youtube self search_query quality_choice w
    = (Ok ok, [YdlExtract ("ytsearch1:" ++ search_query)
                          (search_options self quality_choice)]) /\
    (ok = true <->
     exists info, w (YdlExtract ("ytsearch1:" ++ search_query)
                                (search_options self quality_choice)) = Ok (JObj info)) /\
    is_search (YdlExtract ("ytsearch1:" ++ search_query)
                          (search_options self quality_choice)) = true /\
    postprocessors (search_options self quality_choice)
    = postprocessors (get_download_options self quality_choice).
Proof.
  eexists. split; [apply download_youtube_run|].
  split; [|split; [apply (startswith_app "ytsearch1:") | reflexivity]].
  destruct (w _) as [[| b | z | s | items | d] | e]; split;
    try discriminate; try (intros [info H]; discriminate H).
  - intros _. now exists d.
  - reflexivity.
Qed.

Lemma download_youtube_result_witness :
  download_youtube {| output_dir := "downloads" |} "slava funk" "1" sample_world
  = (Ok true, [YdlExtract "ytsearch1:slava funk"
                          (search_options {| output_dir := "downloads" |} "1")]).
Proof.
  destruct (download_youtube_result {| output_dir := "downloads" |} "slava funk" "1"
              sample_world) as [ok [Hrun [Hok _]]].
  assert (ok = true) as -> by (apply Hok; now eexists).
  exact Hrun.
Defined.

(** ** How many calls a run makes *)

Lemma get_track_info_calls (py_str : json -> string) (self : SpotifyAPI)
    (track_url : string) (w : World) :
  exists t self' l,
    get_track_info py_str self track_url w = (Ok (t, self'), l) /\
    List.length l <= 2 /\ List.filter is_download l = [].
Proof.
  unfold get_track_info.
  destruct (negb (Py.truthy (access_token self))).
  - unfold bind. rewrite get_access_token_run.
    destruct (w (token_request _ _)) as [[| b | z | s | items | d] | e];
      try (eexists _, _, _; split; [reflexivity | split; [simpl; lia | reflexivity]]).
    destruct (Py.lookup "access_token" d) as [token |];
      [|eexists _, _, _; split; [reflexivity | split; [simpl; lia | reflexivity]]].
    cbn [negb]. rewrite fetch_track_run.
    eexists _, _, _. split; [reflexivity | split; [simpl; lia | reflexivity]].
  - rewrite fetch_track_run.
    eexists _, _, _. split; [reflexivity | split; [simpl; lia | reflexivity]].
Qed.

(** After the metadata the Spotify branch makes at most one more call, and
    that one is a search-mode download. *)
Lemma spotify_branch_calls (py_str : json -> string) (downloader : AudioDownloader)
    (url quality : string) (w : World) :
  exists l more,
    snd (spotify_branch py_str downloader url quality w) = (l ++ more)%list /\
    List.length l <= 2 /\ List.filter is_download l = [] /\
    (more = [] \/ exists query,
        more = [YdlExtract ("ytsearch1:" ++ query) (search_options downloader quality)]).
Proof.
  destruct (get_track_info_calls py_str
              (SpotifyAPI_init SPOTIFY_CLIENT_ID SPOTIFY_CLIENT_SECRET) url w)
    as [t [self' [l [Hinfo [Hlen Hnd]]]]].
  exists l. unfold spotify_branch, bind at 1. rewrite Hinfo.
  destruct (negb (Py.truthy t)).
  { exists []. cbn [ret snd]. repeat split; try assumption. now left. }
  repeat match goal with
         | |- context [bind (lift ?r) ?k w] =>
             destruct r;
             [rewrite bind_lift_ok
             | rewrite bind_lift_raise; exists [];
               cbn [snd]; repeat split; try assumption; now left]
         end.
  unfold bind. rewrite download_youtube_run. cbn [ret snd].
  eexists. split; [rewrite app_nil_r; reflexivity|].
  repeat split; try assumption. right. now eexists.
Qed.

(** No run of [main] makes more than three calls, and at most two of them ask
    yt-dlp for audio: there is one fallback at most and no retry loop. *)
Theorem main_call_bound (py_str : json -> string) (url_in quality_in : string)
    (w : World) :
  List.length (snd (main py_str url_in quality_in w)) <= 3 /\
  List.length (List.filter is_download (snd (main py_str url_in quality_in w))) <= 2 /\
  (detect_url_type (effective_url url_in) <> jiosaavn ->
   List.length (List.filter is_download (snd (main py_str url_in quality_in w))) <= 1).
Proof.
  unfold main. destruct (detect_url_type (effective_url url_in)).
  - destruct (spotify_branch_calls py_str {| output_dir := "downloads" |}
                (effective_url url_in) (effective_quality quality_in) w)
      as [l [more [-> [Hlen [Hnd Hmore]]]]].
    rewrite List.filter_app, Hnd, List.length_app.
    destruct Hmore as [-> | [query ->]]; simpl; repeat split; intros; lia.
  - unfold try_except.
    pose proof (jiosaavn_direct_requests {| output_dir := "downloads" |}
                  (effective_url url_in) (effective_quality quality_in) w) as Hl.
    destruct (jiosaavn_direct _ _ _ w) as [[rep | e] l]; cbn [snd] in Hl; subst l.
    + simpl. repeat split; try lia; try (intros H; now elim H).
    + unfold jiosaavn_fallback, bind. rewrite download_youtube_run. simpl.
      repeat split; try lia; try (intros H; now elim H).
  - simpl. repeat split; intros; lia.
Qed.

Lemma main_call_bound_witness :
  List.length
    (List.filter is_download
       (snd (main str_of_scalar
                  "https://open.spotify.com/track/3n3Ppam7vgaVa1iaRUc9Lp?si=abc" "1"
                  sample_world))) <= 1.
Proof.
  apply (proj2 (proj2 (main_call_bound str_of_scalar
                         "https://open.spotify.com/track/3n3Ppam7vgaVa1iaRUc9Lp?si=abc"
                         "1" sample_world))).
  discriminate.
Defined.

(** ** JioSaavn branch: when the direct attempt counts as done *)

(** When yt-dlp comes back with a dict whose "duration" is absent or an
    integer, the direct attempt ends the run: one call, no search, and the
    summary shows that duration, "0:00" when it is absent. *)
Theorem jiosaavn_direct_success (py_str : json -> string) (w : World)
    (url_in quality_in : string) (info : list (string * json)) (d : Z) :
  detect_url_type (effective_url url_in) = jiosaavn ->
  w (YdlExtract (effective_url url_in)
                (get_download_options {| output_dir := "downloads" |}
                                      (effective_quality quality_in)))
  = Ok (JObj info) ->
  Py.lookup "duration" info = Some (JInt d) \/
  (Py.lookup "duration" info = None /\ d = 0%Z) ->
  main py_str url_in quality_in w
  = (Ok {| status := Succeeded; duration_shown := Some (duration_text_seconds d) |},
     [YdlExtract (effective_url url_in)
                 (get_download_options {| output_dir := "downloads" |}
                                       (effective_quality quality_in))]).
Proof.
  intros Htype Hw Hd. unfold main. rewrite Htype.
  unfold try_except, jiosaavn_direct. rewrite bind_call, Hw.
  cbn [Py.get]. rewrite !bind_lift_ok.
  destruct Hd as [Hd | [Hd ->]]; rewrite Hd; cbn [Py.as_int];
    rewrite bind_lift_ok; reflexivity.
Qed.

Lemma jiosaavn_direct_success_witness :
  main str_of_scalar "" "3" sample_world
  = (Ok {| status := Succeeded; duration_shown := Some "2:05" |},
     [YdlExtract "https://www.jiosaavn.com/song/slava-funk/Mi8IRkxDAUM"
                 (get_download_options {| output_dir := "downloads" |} "3")]).
Proof.
  apply (jiosaavn_direct_success str_of_scalar sample_world "" "3"
           [("title", JStr "Slava Funk"); ("duration", JInt 125)] 125%Z).
  - reflexivity.
  - reflexivity.
  - left. reflexivity.
Defined.

(** A direct download that went through is still followed by the search
    download when its result cannot be summarised: when yt-dlp comes back
    with something that is not a dict, or with a dict whose "duration" is
    neither an integer nor a boolean ([None], for one).  The exception raised
    while printing the summary lands in the same handler as a failed
    download. *)
Theorem jiosaavn_fallback_after_download (py_str : json -> string) (w : World)
    (url_in quality_in : string) (data : json) :
  detect_url_type (effective_url url_in) = jiosaavn ->
  w (YdlExtract (effective_url url_in)
                (get_download_options {| output_dir := "downloads" |}
                                      (effective_quality quality_in)))
  = Ok data ->
  Py.isinstance_dict data = false \/
  (exists info v, data = JObj info /\ Py.lookup "duration" info = Some v /\
                  (forall z, v <> JInt z) /\ (forall b, v <> JBool b)) ->
  snd (main py_str url_in quality_in w)
  = [YdlExtract (effective_url url_in)
                (get_download_options {| output_dir := "downloads" |}
                                      (effective_quality quality_in));
     YdlExtract ("ytsearch1:" ++ song_name_of (effective_url url_in))
                (search_options {| output_dir := "downloads" |}
                                (effective_quality quality_in))].
Proof.
  intros Htype Hw Hbad. unfold main. rewrite Htype.
  assert (Hraise : exists e,
             jiosaavn_direct {| output_dir := "downloads" |} (effective_url url_in)
                             (effective_quality quality_in) w
             = (Raise e,
                [YdlExtract (effective_url url_in)
                            (get_download_options {| output_dir := "downloads" |}
                                                  (effective_quality quality_in))])).
  { unfold jiosaavn_direct. rewrite bind_call, Hw.
    destruct Hbad as [Hnd | [info [v [-> [Hv [Hz Hb]]]]]].
    - destruct data; try discriminate Hnd; now eexists.
    - cbn [Py.get]. rewrite !bind_lift_ok. rewrite Hv.
      destruct v; try (now eexists); [now elim (Hb b) | now elim (Hz z)]. }
  destruct Hraise as [e Hraise].
  unfold try_except. rewrite Hraise.
  unfold jiosaavn_fallback, bind. now rewrite download_youtube_run.
Qed.

Lemma jiosaavn_fallback_after_download_witness :
  snd (main str_of_scalar "" "1" no_duration_world)
  = [YdlExtract "https://www.jiosaavn.com/song/slava-funk/Mi8IRkxDAUM"
                (get_download_options {| output_dir := "downloads" |} "1");
     YdlExtract "ytsearch1:slava funk"
                (search_options {| output_dir := "downloads" |} "1")].
Proof.
  apply (jiosaavn_fallback_after_download str_of_scalar no_duration_world "" "1"
           (JObj [("title", JStr "Slava Funk"); ("duration", JNull)])
           eq_refl eq_refl).
  right. exists [("title", JStr "Slava Funk"); ("duration", JNull)], JNull.
  split; [reflexivity|]. split; [reflexivity|]. split; intros; discriminate.
Defined.

(** ** Spotify branch: metadata that is not a track object *)

(** Metadata that Python counts as false is treated like [None]: an empty
    dict, an empty list, an empty string, zero and [False] all end the run as
    [Failed] with the resolver's calls only. *)
Theorem spotify_falsy_metadata (py_str : json -> string) (w : World)
    (url_in quality_in : string) (t : json) (self' : SpotifyAPI)
    (l : list Request) :
  detect_url_type (effective_url url_in) = spotify ->
  get_track_info py_str (SpotifyAPI_init SPOTIFY_CLIENT_ID SPOTIFY_CLIENT_SECRET)
                 (effective_url url_in) w = (Ok (t, self'), l) ->
  Py.truthy t = false ->
  main py_str url_in quality_in w
  = (Ok {| status := Failed; duration_shown := None |}, l).
Proof.
  intros Htype Hinfo Ht. unfold main. rewrite Htype.
  unfold spotify_branch, bind at 1. rewrite Hinfo, Ht.
  cbn [negb ret]. now rewrite app_nil_r.
Qed.

Lemma spotify_falsy_metadata_witness :
  main str_of_scalar "https://open.spotify.com/track/3n3Ppam7vgaVa1iaRUc9Lp" "1"
       (fun q => match q with
                 | HttpPost _ _ _ => Ok (JObj [("access_token", JStr "token")])
                 | HttpGet _ _ _ => Ok (JObj [])
                 | YdlExtract _ _ => Raise DownloadError
                 end)
  = (Ok {| status := Failed; duration_shown := None |},
     [token_request SPOTIFY_CLIENT_ID SPOTIFY_CLIENT_SECRET;
      track_request "token" "https://open.spotify.com/track/3n3Ppam7vgaVa1iaRUc9Lp"]).
Proof.
  apply (spotify_falsy_metadata str_of_scalar _
           "https://open.spotify.com/track/3n3Ppam7vgaVa1iaRUc9Lp" "1" (JObj [])
           (with_token (SpotifyAPI_init SPOTIFY_CLIENT_ID SPOTIFY_CLIENT_SECRET)
                       (JStr "token")));
    reflexivity.
Defined.

(** Metadata that is not a track object escapes as an exception: when the
    answer counts as true but is not a dict, or is a dict whose "album" is not
    a dict ([None], for one), [main] raises before any download is asked for;
    nothing in the Spotify branch catches it. *)
Theorem spotify_malformed_metadata_raises (py_str : json -> string) (w : World)
    (url_in quality_in : string) (t : json) (self' : SpotifyAPI)
    (l : list Request) :
  detect_url_type (effective_url url_in) = spotify ->
  get_track_info py_str (SpotifyAPI_init SPOTIFY_CLIENT_ID SPOTIFY_CLIENT_SECRET)
                 (effective_url url_in) w = (Ok (t, self'), l) ->
  Py.truthy t = true ->
  Py.isinstance_dict t = false \/
  (exists fields album, t = JObj fields /\ Py.lookup "album" fields = Some album /\
                        Py.isinstance_dict album = false) ->
  exists e, main py_str url_in quality_in w = (Raise e, l).
Proof.
  intros Htype Hinfo Ht Hbad. unfold main. rewrite Htype.
  unfold spotify_branch, bind at 1. rewrite Hinfo, Ht. cbn [negb].
  destruct Hbad as [Hnd | [fields [album [-> [Halbum Hnd]]]]].
  - destruct t; try discriminate Hnd;
      cbn [Py.get]; rewrite bind_lift_raise; rewrite app_nil_r; now eexists.
  - assert (Hget : forall k dflt, Py.get album k dflt = Raise AttributeError)
      by (intros; destruct album; try reflexivity; discriminate Hnd).
    cbn [Py.get rbind]. rewrite Halbum. cbn [rbind]. rewrite !Hget.
    rewrite bind_lift_ok.
    repeat match goal with
           | |- context [bind (lift (Raise ?e)) ?k w] =>
               rewrite bind_lift_raise; rewrite app_nil_r; now eexists
           | |- context [bind (lift ?r) ?k w] =>
               destruct r;
               [rewrite bind_lift_ok
               | rewrite bind_lift_raise; rewrite app_nil_r; now eexists]
           end.
Qed.

Lemma spotify_malformed_metadata_raises_witness :
  exists e,
    main str_of_scalar "https://open.spotify.com/track/3n3Ppam7vgaVa1iaRUc9Lp" "1"
         (fun q => match q with
                   | HttpPost _ _ _ => Ok (JObj [("access_token", JStr "token")])
                   | HttpGet _ _ _ =>
                       Ok (JObj [("name", JStr "Slava Funk"); ("artists", JArr []);
                                 ("album", JNull)])
                   | YdlExtract _ _ => Ok (JObj [])
                   end)
    = (Raise e,
       [token_request SPOTIFY_CLIENT_ID SPOTIFY_CLIENT_SECRET;
        track_request "token" "https://open.spotify.com/track/3n3Ppam7vgaVa1iaRUc9Lp"]).
Proof.
  apply (spotify_malformed_metadata_raises str_of_scalar _
           "https://open.spotify.com/track/3n3Ppam7vgaVa1iaRUc9Lp" "1"
           (JObj [("name", JStr "Slava Funk"); ("artists", JArr []); ("album", JNull)])
           (with_token (SpotifyAPI_init SPOTIFY_CLIENT_ID SPOTIFY_CLIENT_SECRET)
                       (JStr "token")));
    try reflexivity.
  right. eexists _, _. repeat split; reflexivity.
Defined.

(** A track object without "name" and without "artists" is searched for as
    "Unknown " (the default name, a space, and nothing): the phrase ends with
    the space that would precede the artists.  With a name and no artists the
    phrase is the name followed by that space.  A missing "duration_ms" is
    shown as "0:00". *)
Theorem spotify_missing_fields (py_str : json -> string) (w : World)
    (url_in quality_in : string) (fields : list (string * json))
    (track_name : option string) (self' : SpotifyAPI) (l : list Request) :
  (forall s, py_str (JStr s) = s) ->
  detect_url_type (effective_url url_in) = spotify ->
  get_track_info py_str (SpotifyAPI_init SPOTIFY_CLIENT_ID SPOTIFY_CLIENT_SECRET)
                 (effective_url url_in) w = (Ok (JObj fields, self'), l) ->
  fields <> [] ->
  Py.lookup "name" fields = option_map JStr track_name ->
  Py.lookup "artists" fields = None \/ Py.lookup "artists" fields = Some (JArr []) ->
  Py.lookup "album" fields = None ->
  Py.lookup "duration_ms" fields = None ->
  exists st,
    main py_str url_in quality_in w
    = (Ok {| status := st; duration_shown := Some "0:00" |},
       (l ++ [YdlExtract ("ytsearch1:"
                          ++ match track_name with
                             | Some nm => nm
                             | None => "Unknown"
                             end ++ " ")
                         (search_options {| output_dir := "downloads" |}
                                         (effective_quality quality_in))])%list).
Proof.
  intros Hstr Htype Hinfo Hne Hname Hartists Halbum Hms.
  unfold main. rewrite Htype.
  unfold spotify_branch, bind at 1. rewrite Hinfo.
  assert (Ht : Py.truthy (JObj fields) = true)
    by (destruct fields; [now elim Hne | reflexivity]).
  rewrite Ht. cbn [negb Py.get rbind].
  rewrite Hname, Halbum, Hms.
  destruct Hartists as [Ha | Ha]; rewrite Ha;
    cbn [Py.iter Py.get rbind Py.as_int Py.lookup];
    rewrite !bind_lift_ok; cbn [traverse]; rewrite !bind_lift_ok;
    change (join_values ", " []) with (@Ok string "");
    change (join_values " " []) with (@Ok string "");
    rewrite !bind_lift_ok;
    unfold bind; rewrite download_youtube_run; cbn [ret];
    (destruct track_name as [nm |]; cbn [option_map]; rewrite Hstr;
     eexists; reflexivity).
Qed.

Lemma spotify_missing_fields_witness :
  exists st,
    main str_of_scalar "https://open.spotify.com/track/3n3Ppam7vgaVa1iaRUc9Lp" "1"
         (fun q => match q with
                   | HttpPost _ _ _ => Ok (JObj [("access_token", JStr "token")])
                   | HttpGet _ _ _ => Ok (JObj [("id", JStr "3n3Ppam7vgaVa1iaRUc9Lp")])
                   | YdlExtract _ _ => Raise DownloadError
                   end)
    = (Ok {| status := st; duration_shown := Some "0:00" |},
       [token_request SPOTIFY_CLIENT_ID SPOTIFY_CLIENT_SECRET;
        track_request "token" "https://open.spotify.com/track/3n3Ppam7vgaVa1iaRUc9Lp";
        YdlExtract "ytsearch1:Unknown "
                   (search_options {| output_dir := "downloads" |} "1")]).
Proof.
  apply (spotify_missing_fields str_of_scalar _
           "https://open.spotify.com/track/3n3Ppam7vgaVa1iaRUc9Lp" "1"
           [("id", JStr "3n3Ppam7vgaVa1iaRUc9Lp")] None
           (with_token (SpotifyAPI_init SPOTIFY_CLIENT_ID SPOTIFY_CLIENT_SECRET)
                       (JStr "token"))
           [token_request SPOTIFY_CLIENT_ID SPOTIFY_CLIENT_SECRET;
            track_request "token"
              "https://open.spotify.com/track/3n3Ppam7vgaVa1iaRUc9Lp"]);
    try reflexivity; [discriminate | now left].
Defined.

(** ** Direct download *)

Lemma write_chunks_concat (cs : list string) (content : string) :
  write_chunks content cs = content ++ String.concat "" cs.
Proof.
  revert content. induction cs as [|c cs IH]; intros content; cbn [write_chunks].
  - now rewrite append_nil_r.
  - rewrite IH, append_assoc. f_equal.
    destruct cs as [|c' cs']; [now rewrite !append_nil_r | reflexivity].
Qed.

(** [download_direct] answers [True] exactly when the request succeeds, the
    file can be opened and the stream runs to its end.  When the request
    fails or the file cannot be opened, no file is touched. *)
Theorem download_direct_outcome (self : AudioDownloader) (url filename : string)
    (env : Surroundings) (fs : Files) :
  (fst (download_direct self url filename env fs) = true <->
   exists response,
     fetch env url = Some response /\
     creatable env (path_join (output_dir self) filename) = true /\
     interrupted response = false) /\
  (fetch env url = None \/
   creatable env (path_join (output_dir self) filename) = false ->
   download_direct self url filename env fs = (false, fs)).
Proof.
  unfold download_direct. split.
  - destruct (fetch env url) as [response |].
    + destruct (creatable env _) eqn:Hc; cbn [fst].
      * split.
        -- intros H. exists response. repeat split.
           now destruct (interrupted response).
        -- intros [r [Hr [_ Hi]]]. injection Hr as <-. now rewrite Hi.
      * split; [discriminate | intros [r [_ [H _]]]; discriminate H].
    + split; [discriminate | intros [r [H _]]; discriminate H].
  - intros [-> | Hc]; [reflexivity|].
    destruct (fetch env url); [now rewrite Hc | reflexivity].
Qed.

Lemma download_direct_outcome_witness :
  download_direct {| output_dir := "downloads" |}
    "https://aac.saavncdn.com/a.mp4" "a.mp4"
    {| fetch := fun _ => None; creatable := fun _ => true |} (fun _ => None)
  = (false, fun _ => None).
Proof.
  apply (proj2 (download_direct_outcome {| output_dir := "downloads" |}
                  "https://aac.saavncdn.com/a.mp4" "a.mp4"
                  {| fetch := fun _ => None; creatable := fun _ => true |}
                  (fun _ => None))).
  left. reflexivity.
Defined.

(** Once the file is open, it holds the chunks received, in order, and
    nothing of what it held before; every other file is as it was.  This is
    so even when the stream breaks off and the answer is [False]: the part
    received stays on disk. *)
Theorem download_direct_file (self : AudioDownloader) (url filename : string)
    (env : Surroundings) (fs : Files) (response : Stream) :
  fetch env url = Some response ->
  creatable env (path_join (output_dir self) filename) = true ->
  snd (download_direct self url filename env fs)
      (path_join (output_dir self) filename)
  = Some (String.concat "" (chunks response)) /\
  (forall p, p <> path_join (output_dir self) filename ->
             snd (download_direct self url filename env fs) p = fs p) /\
  fst (download_direct self url filename env fs) = negb (interrupted response).
Proof.
  intros Hf Hc. unfold download_direct. rewrite Hf, Hc. cbn [fst snd].
  unfold write_file. split; [|split; [|reflexivity]].
  - now rewrite String.eqb_refl, write_chunks_concat.
  - intros p Hp. apply String.eqb_neq in Hp. now rewrite Hp.
Qed.

Lemma download_direct_file_witness :
  snd (download_direct {| output_dir := "downloads" |}
         "https://aac.saavncdn.com/a.mp4" "a.mp4"
         {| fetch := fun _ => Some {| chunks := ["ID3"; "abc"]; interrupted := true |};
            creatable := fun _ => true |}
         (fun _ => Some "old"))
      "downloads/a.mp4"
  = Some "ID3abc".
Proof.
  exact (proj1 (download_direct_file {| output_dir := "downloads" |}
                  "https://aac.saavncdn.com/a.mp4" "a.mp4"
                  {| fetch := fun _ => Some {| chunks := ["ID3"; "abc"];
                                               interrupted := true |};
                     creatable := fun _ => true |}
                  (fun _ => Some "old")
                  {| chunks := ["ID3"; "abc"]; interrupted := true |}
                  eq_refl eq_refl)).
Defined.
